(** * Nexus CLI: the chat session loop of [src/index.ts]

    A shallow embedding of the [ChatCLI] class: its fields become a record,
    every method a function on that record, and everything the class talks to
    (the terminal, the environment variables, the MCP client library, the
    text-generation call) is an explicit environment or an event in an
    output trace. *)

From Stdlib Require Import Ascii List Arith Bool Lia DecimalString.
From stdpp Require Import base strings gmap list.
Import ListNotations.

(** ** JavaScript strings

    The terminal lines the program compares against its two keywords are
    modelled as sequences of code units in the range U+0000..U+00FF (the
    256 values of [ascii]).  [String.prototype.trim] and
    [String.prototype.toLowerCase] are embedded exactly on that range. *)
Module Js.

(** WhiteSpace and LineTerminator code points of ECMAScript below U+0100:
    TAB, LF, VT, FF, CR, SPACE and NO-BREAK SPACE. *)
Definition isWhiteSpace (c : ascii) : bool :=
  let n := nat_of_ascii c in
  ((9 <=? n) && (n <=? 13)) || (n =? 32) || (n =? 160).

Fixpoint trimStart (s : string) : string :=
  match s with
  | EmptyString => EmptyString
  | String c s' => if isWhiteSpace c then trimStart s' else s
  end.

Fixpoint trimEnd (s : string) : string :=
  match s with
  | EmptyString => EmptyString
  | String c s' =>
      match trimEnd s' with
      | EmptyString => if isWhiteSpace c then EmptyString else String c EmptyString
      | t => String c t
      end
  end.

(** [s.trim()] *)
Definition trim (s : string) : string := trimEnd (trimStart s).

(** Lower-case mapping of one code unit: A-Z, and the Latin-1 capitals
    U+00C0..U+00DE except the multiplication sign U+00D7. *)
Definition lowerChar (c : ascii) : ascii :=
  let n := nat_of_ascii c in
  if ((65 <=? n) && (n <=? 90))
     || ((192 <=? n) && (n <=? 222) && negb (n =? 215))
  then ascii_of_nat (n + 32) else c.

(** [s.toLowerCase()] *)
Fixpoint toLowerCase (s : string) : string :=
  match s with
  | EmptyString => EmptyString
  | String c s' => String (lowerChar c) (toLowerCase s')
  end.

(** Every code unit of the string is white space. *)
Fixpoint allWhiteSpace (s : string) : bool :=
  match s with
  | EmptyString => true
  | String c s' => isWhiteSpace c && allWhiteSpace s'
  end.

(** Truthiness of a string value: only the empty string is falsy. *)
Definition truthy (s : string) : bool :=
  match s with EmptyString => false | _ => true end.

(** [a || b] on strings. *)
Definition orElse (a b : string) : string := if truthy a then a else b.

(** A thrown value: an instance of [Error] with its [message], or any other
    value (JavaScript lets a program throw anything), kept by its rendering. *)
Inductive Thrown : Type :=
| ErrorInstance (message : string)
| OtherValue (rendering : string).

(** The settlement of an awaited promise. *)
Inductive Outcome (A : Type) : Type :=
| Resolved (a : A)
| Rejected (t : Thrown).
Arguments Resolved {A} a.
Arguments Rejected {A} t.

(** [s.startsWith(p)] *)
Fixpoint startsWith (p s : string) : bool :=
  match p, s with
  | EmptyString, _ => true
  | String a p', String b s' => bool_decide (a = b) && startsWith p' s'
  | String _ _, EmptyString => false
  end.

(** [s.includes(p)] *)
Fixpoint includes (p s : string) : bool :=
  startsWith p s ||
  match s with
  | EmptyString => false
  | String _ s' => includes p s'
  end.

(** Template-literal rendering of a number. *)
Definition numberToString (n : nat) : string :=
  NilZero.string_of_uint (Nat.to_uint n).

End Js.

(** ** Data model *)

(** The line feed of the source's [\n] escapes, and the double quote. *)
Definition nl : string := String (ascii_of_nat 10) EmptyString.
Definition dq : string := String (ascii_of_nat 34) EmptyString.

(** A value the program only ever serialises: it is kept with the text
    [JSON.stringify] gives for it. *)
Record Json : Type := { stringify : string }.

Inductive Role : Type := user | assistant | tool | system.

(** The content of a message: plain text, or the structured parts of a
    tool call or tool result. *)
Inductive Content : Type :=
| Text (s : string)
| Parts (payload : Json).

(** [CoreMessage] of the AI SDK. *)
Record CoreMessage : Type := { role : Role; content : Content }.

(** A tool of the MCP server, opaque to the program. *)
Record Tool : Type := { description : string }.

Record ToolCall : Type := { toolName : string; args : Json }.

(** The [output] of a tool result, with the truthiness of its [isError]. *)
Record ToolOutput : Type := { isError : bool; payload : Json }.

(** A tool result; [output] may be undefined. *)
Record ToolResult : Type := { output : option ToolOutput }.

(** What [onStepFinish] receives; both arrays may be undefined. *)
Record Step : Type := {
  toolCalls : option (list ToolCall);
  toolResults : option (list ToolResult)
}.

(** The options object handed to [generateText]. *)
Record GenRequest : Type := {
  req_model : string;
  req_apiKey : string;
  req_system : string;
  req_messages : list CoreMessage;
  req_tools : gmap string Tool;
  req_stopWhen : nat   (* the [n] of [stepCountIs(n)] *)
}.

(** The fields of the result that the program reads. *)
Record GenResult : Type := {
  text : string;
  response_messages : list CoreMessage
}.

(** One run of [generateText]: the steps it reports through [onStepFinish],
    in order, and then how its promise settles. *)
Record GenRun : Type := {
  steps : list Step;
  settled : Js.Outcome GenResult
}.

(** The client object [experimental_createMCPClient] resolves to, with what
    its two methods do when called. *)
Record McpClient : Type := {
  client_tools : Js.Outcome (gmap string Tool);
  client_close : Js.Outcome unit
}.

(** [StreamableHTTPClientTransport]: the URL and, when an access token is
    set, the [Authorization] header of its requests. *)
Record Transport : Type := {
  transport_url : string;
  authorization : option string
}.

(** Everything outside the program: the environment variables and the
    library calls.  [generateText k req] is the run of the call number [k]
    (counted from 0) of the session on the request [req].  [inputEnded]
    tells how the terminal input ends once the lines typed run out: the
    input stream has ended and readline has closed before the loop asks
    for its next line, or the terminal is still open (or ends only while
    the question waits). *)
Record Env : Type := {
  OPENAI_API_KEY : option string;
  DEBUG : option string;
  NEXUS_MCP_URL : option string;
  CIVIC_ACCESS_TOKEN : option string;
  inputEnded : bool;
  new_URL : string -> Js.Outcome string;
  createMCPClient : Transport -> Js.Outcome McpClient;
  generateText : nat -> GenRequest -> GenRun
}.

(** What the program does to the outside, in order. *)
Inductive Event : Type :=
| ConsoleLog (line : string)
| ConsoleError (t : Js.Thrown)
| Question (prompt : string)
| RlClose
| CreateMCPClient (t : Transport)
| McpTools
| McpClose
| GenerateText (req : GenRequest).

(** The fields of the class ([rl] is the terminal interface: open or not). *)
Record ChatCLI : Type := {
  conversationHistory : list CoreMessage;
  apiKey : string;
  rlOpen : bool;
  mcpClient : option McpClient;
  mcpTools : gmap string Tool;
  debugMode : bool
}.

(** The running program: the object and the trace of its events so far. *)
Record Session : Type := { self : ChatCLI; trace : list Event }.

(** ** Constants *)

Definition MCP_SERVER_URL (env : Env) : string :=
  match NEXUS_MCP_URL env with
  | Some u => Js.orElse u "https://nexus.civic.com/hub/mcp"
  | None => "https://nexus.civic.com/hub/mcp"
  end.

Definition MAX_STEPS : nat := 10.

Definition SYSTEM_PROMPT : string :=
  "You are a helpful assistant. When you use tools to gather information, always provide a clear, conversational response to the user based on the tool results.".

(** ** The monad of the class's methods

    A method runs on the session and either completes with a value, waits
    for ever on a terminal read that gets no line, or lets a thrown value
    escape. *)
Inductive Completion (A : Type) : Type :=
| Done (a : A)
| Pending
| Uncaught (t : Js.Thrown).
Arguments Done {A} a.
Arguments Pending {A}.
Arguments Uncaught {A} t.

Definition M (A : Type) : Type := Session -> Completion A * Session.

Definition ret {A} (a : A) : M A := fun s => (Done a, s).

Definition bind {A B} (m : M A) (k : A -> M B) : M B :=
  fun s =>
    match m s with
    | (Done a, s') => k a s'
    | (Pending, s') => (Pending, s')
    | (Uncaught t, s') => (Uncaught t, s')
    end.

Notation "x <- m ;; k" := (bind m (fun x => k))
  (at level 100, m at level 99, k at level 200, right associativity).
Notation "m ;;; k" := (bind m (fun _ => k))
  (at level 100, k at level 200, right associativity).

Definition emit (e : Event) : M unit :=
  fun s => (Done tt, {| self := self s; trace := trace s ++ [e] |}).

Definition this : M ChatCLI := fun s => (Done (self s), s).

Definition assign (f : ChatCLI -> ChatCLI) : M unit :=
  fun s => (Done tt, {| self := f (self s); trace := trace s |}).

Definition throw {A} (t : Js.Thrown) : M A := fun s => (Uncaught t, s).

Definition never {A} : M A := fun s => (Pending, s).

Definition consoleLog (line : string) : M unit := emit (ConsoleLog line).

(** [xs.forEach(f)] *)
Fixpoint forEach {A} (f : A -> M unit) (xs : list A) : M unit :=
  match xs with
  | [] => ret tt
  | x :: xs' => f x ;;; forEach f xs'
  end.


(** The number of [generateText] calls made so far. *)
Fixpoint callCount (tr : list Event) : nat :=
  match tr with
  | [] => 0
  | GenerateText _ :: tr' => S (callCount tr')
  | _ :: tr' => callCount tr'
  end.

(** Assignments to the fields of [this]. *)
Definition setConversationHistory (h : list CoreMessage) (c : ChatCLI) : ChatCLI :=
  {| conversationHistory := h; apiKey := apiKey c; rlOpen := rlOpen c;
     mcpClient := mcpClient c; mcpTools := mcpTools c; debugMode := debugMode c |}.

Definition setApiKey (k : string) (c : ChatCLI) : ChatCLI :=
  {| conversationHistory := conversationHistory c; apiKey := k; rlOpen := rlOpen c;
     mcpClient := mcpClient c; mcpTools := mcpTools c; debugMode := debugMode c |}.

Definition setRlOpen (b : bool) (c : ChatCLI) : ChatCLI :=
  {| conversationHistory := conversationHistory c; apiKey := apiKey c; rlOpen := b;
     mcpClient := mcpClient c; mcpTools := mcpTools c; debugMode := debugMode c |}.

Definition setMcpClient (m : option McpClient) (c : ChatCLI) : ChatCLI :=
  {| conversationHistory := conversationHistory c; apiKey := apiKey c; rlOpen := rlOpen c;
     mcpClient := m; mcpTools := mcpTools c; debugMode := debugMode c |}.

Definition setMcpTools (t : gmap string Tool) (c : ChatCLI) : ChatCLI :=
  {| conversationHistory := conversationHistory c; apiKey := apiKey c; rlOpen := rlOpen c;
     mcpClient := mcpClient c; mcpTools := t; debugMode := debugMode c |}.

(** The message [{ role: 'user', content: userMessage }]. *)
Definition userTurn (userMessage : string) : CoreMessage :=
  {| role := user; content := Text userMessage |}.

(** The options [sendMessage] passes to [generateText], read from the
    object once the user's message is pushed. *)
Definition requestOf (c : ChatCLI) : GenRequest :=
  {| req_model := "gpt-4o-mini";
     req_apiKey := apiKey c;
     req_system := SYSTEM_PROMPT;
     req_messages := conversationHistory c;
     req_tools := mcpTools c;
     req_stopWhen := MAX_STEPS |}.

(** [JSON.stringify(result.output)] *)
Definition stringifyOutput (o : option ToolOutput) : string :=
  match o with
  | Some out => stringify (payload out)
  | None => "undefined"
  end.

(** The error of [rl.question] on a closed interface. *)
Definition ERR_USE_AFTER_CLOSE : Js.Thrown := Js.ErrorInstance "readline was closed".

(** ** The class [ChatCLI] *)
Section ChatCLI.

Variable env : Env.

(** [constructor()] *)
Definition construct : ChatCLI :=
  {| conversationHistory := [];
     apiKey := match OPENAI_API_KEY env with
               | Some k => k
               | None => EmptyString
               end;
     rlOpen := true;
     mcpClient := None;
     mcpTools := ∅;
     debugMode := match DEBUG env with
                  | Some d => bool_decide (d = "true")
                  | None => false
                  end |}.

(** [this.rl.question(prompt, callback)].  On an interface that has closed
    (readline closes itself when the input stream ends) the call throws
    [ERR_USE_AFTER_CLOSE] before anything is written.  Otherwise the prompt
    is written, and the callback gets the next line typed, if there is one:
    with no line the callback is never called. *)
Definition question (closed : bool) (prompt : string) (stdin : list string) : M string :=
  if closed then
    assign (setRlOpen false) ;;;
    throw ERR_USE_AFTER_CLOSE
  else
    emit (Question prompt) ;;;
    match stdin with
    | [] => never
    | answer :: _ => ret answer
    end.

(** Whether readline has closed by the time the loop asks for a line: every
    line typed was read and the input had ended. *)
Definition readlineClosed (stdin : list string) : bool :=
  match stdin with
  | [] => inputEnded env
  | _ :: _ => false
  end.

(** [start] calls this before it first yields to the event loop: nothing
    of the input was read yet, so the interface is open. *)
Definition promptForApiKey (stdin : list string) : M unit :=
  key <- question false "Enter your OpenAI API key: " stdin ;;
  assign (setApiKey (Js.trim key)) ;;;
  consoleLog ("API key saved for this session." +:+ nl).

Definition getUserInput (prompt : string) (stdin : list string) : M string :=
  answer <- question (readlineClosed stdin) prompt stdin ;;
  ret (Js.trim answer).

(** The [catch] block of [initializeMCP]. *)
Definition initializeMCP_catch (error : Js.Thrown) : M unit :=
  consoleLog "Warning: Could not connect to Civic MCP server." ;;;
  match error with
  | Js.ErrorInstance message => consoleLog ("Error: " +:+ message +:+ nl)
  | Js.OtherValue _ => ret tt
  end ;;;
  consoleLog ("Continuing without MCP tools..." +:+ nl).

Definition initializeMCP : M unit :=
  consoleLog "Connecting to Civic MCP server..." ;;;
  let accessToken := CIVIC_ACCESS_TOKEN env in
  match new_URL env (MCP_SERVER_URL env) with
  | Js.Rejected error => initializeMCP_catch error
  | Js.Resolved url =>
      let transport :=
        {| transport_url := url;
           authorization :=
             match accessToken with
             | Some tok => if Js.truthy tok then Some ("Bearer " +:+ tok) else None
             | None => None
             end |} in
      emit (CreateMCPClient transport) ;;;
      match createMCPClient env transport with
      | Js.Rejected error => initializeMCP_catch error
      | Js.Resolved client =>
          assign (setMcpClient (Some client)) ;;;
          emit McpTools ;;;
          match client_tools client with
          | Js.Rejected error => initializeMCP_catch error
          | Js.Resolved tools =>
              assign (setMcpTools tools) ;;;
              me <- this ;;
              let toolCount := size (mcpTools me) in
              consoleLog ("Connected! Loaded " +:+ Js.numberToString toolCount
                          +:+ " tools from Civic MCP." +:+ nl)
          end
      end
  end.

Definition log (message : string) : M unit :=
  me <- this ;;
  if debugMode me then consoleLog message else ret tt.

(** The [onStepFinish] callback of [sendMessage]. *)
Definition onStepFinish (step : Step) : M unit :=
  match toolCalls step with
  | Some calls =>
      if 0 <? length calls then
        forEach (fun call =>
          consoleLog (nl +:+ "[Using tool: " +:+ toolName call +:+ "]") ;;;
          log ("[Args: " +:+ stringify (args call) +:+ "]")) calls
      else ret tt
  | None => ret tt
  end ;;;
  match toolResults step with
  | Some results =>
      if 0 <? length results then
        forEach (fun result =>
          let isError :=
            match output result with
            | Some out => isError out
            | None => false
            end in
          if isError then
            consoleLog "[Tool failed]" ;;;
            log ("[Error: " +:+ stringifyOutput (output result) +:+ "]")
          else
            log "[Tool completed successfully]") results
      else ret tt
  | None => ret tt
  end.

Definition sendMessage (userMessage : string) : M string :=
  assign (fun c =>
    setConversationHistory (conversationHistory c ++ [userTurn userMessage]) c) ;;;
  me <- this ;;
  let request := requestOf me in
  fun s =>
    let run := generateText env (callCount (trace s)) request in
    (emit (GenerateText request) ;;;
     forEach onStepFinish (steps run) ;;;
     match settled run with
     | Js.Resolved result =>
         assign (setConversationHistory (response_messages result)) ;;;
         ret (Js.orElse (text result) "No response generated.")
     | Js.Rejected (Js.ErrorInstance message) => ret ("Error: " +:+ message)
     | Js.Rejected (Js.OtherValue _) => ret "An unknown error occurred."
     end) s.

(** How one pass through the body of [while (true)] ends. *)
Inductive Control : Type := Continue | Break.

(** The body of the loop of [start]. *)
Definition iteration (stdin : list string) : M Control :=
  userInput <- getUserInput "You: " stdin ;;
  if bool_decide (Js.toLowerCase userInput = "exit")
     || bool_decide (Js.toLowerCase userInput = "quit")
  then
    consoleLog (nl +:+ "Goodbye!") ;;;
    assign (setRlOpen false) ;;;
    emit RlClose ;;;
    me <- this ;;
    match mcpClient me with
    | Some client =>
        emit McpClose ;;;
        match client_close client with
        | Js.Resolved _ => ret tt
        | Js.Rejected error => throw error
        end
    | None => ret tt
    end ;;;
    ret Break
  else if negb (Js.truthy userInput) then
    ret Continue
  else
    response <- sendMessage userInput ;;
    consoleLog (nl +:+ "Assistant: " +:+ response +:+ nl) ;;;
    ret Continue.

(** The loop of [start] on the lines still to come from the terminal. *)
Fixpoint mainLoop (stdin : list string) : M unit :=
  c <- iteration stdin ;;
  match c, stdin with
  | Continue, _ :: rest => mainLoop rest
  | _, _ => ret tt
  end.

Definition start (stdin : list string) : M unit :=
  consoleLog "=== Nexus CLI - AI Chat ===" ;;;
  consoleLog ("Powered by Vercel AI SDK v5" +:+ nl) ;;;
  me <- this ;;
  rest <- (if negb (Js.truthy (apiKey me)) then
             promptForApiKey stdin ;;; ret (tail stdin)
           else
             consoleLog ("Using API key from .env file" +:+ nl) ;;; ret stdin) ;;
  initializeMCP ;;;
  consoleLog "Type your message and press Enter to chat." ;;;
  consoleLog ("Type " +:+ dq +:+ "exit" +:+ dq +:+ " or " +:+ dq +:+ "quit" +:+ dq
              +:+ " to end the conversation." +:+ nl) ;;;
  mainLoop rest.

(** [new ChatCLI().start().catch(console.error)] on the lines typed at the
    terminal. *)
Definition chat (stdin : list string) : Completion unit * Session :=
  match start stdin {| self := construct; trace := [] |} with
  | (Uncaught t, s) => emit (ConsoleError t) s
  | r => r
  end.

End ChatCLI.

(** ** What the methods do, as lists of events *)

(** The notices [onStepFinish] writes for one proposed tool call. *)
Definition callNotices (debug : bool) (call : ToolCall) : list Event :=
  ConsoleLog (nl +:+ "[Using tool: " +:+ toolName call +:+ "]") ::
  (if debug then [ConsoleLog ("[Args: " +:+ stringify (args call) +:+ "]")] else []).

(** Whether a tool result is flagged as errored. *)
Definition flaggedError (result : ToolResult) : bool :=
  match output result with
  | Some out => isError out
  | None => false
  end.

(** The notices [onStepFinish] writes for one tool result. *)
Definition resultNotices (debug : bool) (result : ToolResult) : list Event :=
  if flaggedError result then
    ConsoleLog "[Tool failed]" ::
    (if debug
     then [ConsoleLog ("[Error: " +:+ stringifyOutput (output result) +:+ "]")]
     else [])
  else
    if debug then [ConsoleLog "[Tool completed successfully]"] else [].

Definition stepNotices (debug : bool) (step : Step) : list Event :=
  flat_map (callNotices debug) (default [] (toolCalls step)) ++
  flat_map (resultNotices debug) (default [] (toolResults step)).

(** The object once [sendMessage] has pushed the user's message. *)
Definition afterPush (userMessage : string) (c : ChatCLI) : ChatCLI :=
  setConversationHistory (conversationHistory c ++ [userTurn userMessage]) c.

(** The run of the generation call that [sendMessage userMessage] makes
    in the session [s]. *)
Definition runOf (env : Env) (userMessage : string) (s : Session) : GenRun :=
  generateText env (callCount (trace s)) (requestOf (afterPush userMessage (self s))).

(** What [sendMessage] returns when the generation call throws. *)
Definition errorReply (t : Js.Thrown) : string :=
  match t with
  | Js.ErrorInstance message => "Error: " +:+ message
  | Js.OtherValue _ => "An unknown error occurred."
  end.

(** The session with more events in its trace. *)
Definition logged (s : Session) (evs : list Event) : Session :=
  {| self := self s; trace := trace s ++ evs |}.

(** A sequence of successful turns from a session to another, with, for
    each generation call in order, the messages sent and the transcript
    returned. *)
Inductive Turns (env : Env) :
  Session -> list (list CoreMessage * list CoreMessage) -> Session -> Prop :=
| Turns_nil s : Turns env s [] s
| Turns_snoc s exchanges s1 userMessage result answer s2 :
    Turns env s exchanges s1 ->
    settled (runOf env userMessage s1) = Js.Resolved result ->
    sendMessage env userMessage s1 = (Done answer, s2) ->
    Turns env s
      (exchanges ++ [(conversationHistory (self s1) ++ [userTurn userMessage],
                      response_messages result)])
      s2.

(** The transcripts of a sequence of turns. *)
Definition transcripts (exchanges : list (list CoreMessage * list CoreMessage))
  : list (list CoreMessage) := map snd exchanges.

(** The condition under which the loop of [start] shuts the session down. *)
Definition exitCommand (userInput : string) : bool :=
  bool_decide (Js.toLowerCase userInput = "exit")
  || bool_decide (Js.toLowerCase userInput = "quit").

(** What the shutdown branch of the loop writes and does to the outside. *)
Definition shutdownEvents (c : ChatCLI) : list Event :=
  [ConsoleLog (nl +:+ "Goodbye!"); RlClose] ++
  match mcpClient c with
  | Some _ => [McpClose]
  | None => []
  end.

(** How the shutdown branch ends: the loop is left, or the rejection of
    the client's [close] escapes. *)
Definition shutdownCompletion (c : ChatCLI) : Completion Control :=
  match mcpClient c with
  | Some client =>
      match client_close client with
      | Js.Resolved _ => Done Break
      | Js.Rejected t => Uncaught t
      end
  | None => Done Break
  end.

(** How the initialization of the tool gateway fails, if it does: at
    [new URL], at the creation of the client or at the listing of the tools. *)
Definition initFailure (env : Env) : option Js.Thrown :=
  match new_URL env (MCP_SERVER_URL env) with
  | Js.Rejected t => Some t
  | Js.Resolved url =>
      match createMCPClient env
              {| transport_url := url;
                 authorization :=
                   match CIVIC_ACCESS_TOKEN env with
                   | Some tok => if Js.truthy tok then Some ("Bearer " +:+ tok) else None
                   | None => None
                   end |} with
      | Js.Rejected t => Some t
      | Js.Resolved client =>
          match client_tools client with
          | Js.Rejected t => Some t
          | Js.Resolved _ => None
          end
      end
  end.

(** Whether some line written with [console.log] contains the text. *)
Definition loggedText (needle : string) (tr : list Event) : bool :=
  existsb (fun e => match e with
                    | ConsoleLog line => Js.includes needle line
                    | _ => false
                    end) tr.

(** ** The step loop of the generation call *)
Module Engine.

(** What the language model answers on a history: some text, and the tool
    calls it proposes (none when it is done). *)
Record Proposal : Type := { said : string; proposed : list ToolCall }.

Section Engine.

Variable llm : list CoreMessage -> Proposal.
Variable invoke : ToolCall -> ToolResult.

Definition callMessage (call : ToolCall) : CoreMessage :=
  {| role := assistant; content := Parts (args call) |}.

Definition resultMessage (result : ToolResult) : CoreMessage :=
  {| role := tool; content := Parts {| stringify := stringifyOutput (output result) |} |}.

(** Modelled from the spec: the internal rounds of the generation call (the
    AI SDK's [generateText] under [stopWhen: stepCountIs(n)]), which is not
    in [src/].  Each round asks the model; if it proposes tool calls they
    are invoked and their results fed back; the call stops when the model
    proposes no tool call or when the budget of rounds is used up, and
    returns the text of its last round and the transcript: the messages
    sent followed by the messages of every round, in order. *)
Fixpoint rounds (budget : nat) (history : list CoreMessage)
  : list Step * string * list CoreMessage :=
  match budget with
  | 0 => ([], EmptyString, history)
  | S budget' =>
      let p := llm history in
      match proposed p with
      | [] =>
          ([{| toolCalls := Some []; toolResults := Some [] |}],
           said p,
           history ++ [{| role := assistant; content := Text (said p) |}])
      | calls =>
          let results := map invoke calls in
          let '(later, txt, transcript) :=
            rounds budget'
              (history ++ map callMessage calls ++ map resultMessage results) in
          ({| toolCalls := Some calls; toolResults := Some results |} :: later,
           match later with [] => said p | _ => txt end,
           transcript)
      end
  end.

(** Modelled from the spec: the generation call as a whole, which is not in
    [src/]: it runs the rounds within the step budget of the request and
    resolves with the text and the transcript. *)
Definition generateText (req : GenRequest) : GenRun :=
  let '(reported, txt, transcript) := rounds (req_stopWhen req) (req_messages req) in
  {| steps := reported;
     settled := Js.Resolved {| text := txt; response_messages := transcript |} |}.

End Engine.

End Engine.

(** Events that close the terminal interface or the tool transport. *)
Definition closing (e : Event) : bool :=
  match e with
  | RlClose | McpClose => true
  | _ => false
  end.

(** The sessions reached by sending some messages one after the other. *)
Definition afterTurns (env : Env) (userMessages : list string) (s : Session) : Session :=
  fold_left (fun s0 u => snd (sendMessage env u s0)) userMessages s.

(** What is left of a completion of the loop body once the loop is left. *)
Definition leaveLoop (c : Completion Control) : Completion unit :=
  match c with
  | Done _ => Done tt
  | Pending => Pending
  | Uncaught t => Uncaught t
  end.

(** What the [catch] block of [initializeMCP] writes. *)
Definition catchEvents (error : Js.Thrown) : list Event :=
  ConsoleLog "Warning: Could not connect to Civic MCP server." ::
  match error with
  | Js.ErrorInstance message => [ConsoleLog ("Error: " +:+ message +:+ nl)]
  | Js.OtherValue _ => []
  end ++
  [ConsoleLog ("Continuing without MCP tools..." +:+ nl)].

(** A specification of a method on the tool mapping alone: from a session
    whose mapping satisfies [P], the method ends, however it ends, in a
    session whose mapping satisfies [Q]. *)
Definition toolsTriple {A} (P : gmap string Tool -> Prop) (m : M A)
  (Q : gmap string Tool -> Prop) : Prop :=
  forall s, P (mcpTools (self s)) -> Q (mcpTools (self (snd (m s)))).

(** The method leaves the tool mapping as it finds it. *)
Definition keepsTools {A} (m : M A) : Prop :=
  forall s, mcpTools (self (snd (m s))) = mcpTools (self s).

(** The mapping is the empty one, or the one some client listed. *)
Definition emptyOrListed (tools : gmap string Tool) : Prop :=
  tools = ∅ \/ exists client, client_tools client = Js.Resolved tools.

(** The transcript of a call contains what was sent to it, at its front. *)
Definition extendsSent (exchange : list CoreMessage * list CoreMessage) : Prop :=
  exchange.1 `prefix_of` exchange.2.

(** ** Sample environments and sessions *)

Definition answerTurn (t : string) : CoreMessage :=
  {| role := assistant; content := Text t |}.

(** A generation call that answers [hello] and returns, as its transcript,
    the messages sent followed by its answer. *)
Definition echoRun (req : GenRequest) : GenRun :=
  {| steps := [];
     settled := Js.Resolved {| text := "hello";
                               response_messages := req_messages req ++ [answerTurn "hello"] |} |}.

(** A generation call that returns, as the AI SDK's [generateText] does,
    only the message it generated: the answer of the call number [k]. *)
Definition generatedOnlyRun (k : nat) (req : GenRequest) : GenRun :=
  {| steps := [];
     settled :=
       Js.Resolved
         {| text := "answer " +:+ Js.numberToString k;
            response_messages := [answerTurn ("answer " +:+ Js.numberToString k)] |} |}.

(** A generation call that throws. *)
Definition failingRun (t : Js.Thrown) (req : GenRequest) : GenRun :=
  {| steps := []; settled := Js.Rejected t |}.

(** A generation call that only uses a tool and says nothing. *)
Definition silentRun (req : GenRequest) : GenRun :=
  {| steps := [{| toolCalls := Some [{| toolName := "search"; args := {| stringify := "{}" |} |}];
                  toolResults := Some [{| output := None |}] |}];
     settled := Js.Resolved {| text := EmptyString;
                               response_messages := req_messages req |} |}.

Definition sampleEnv (connect : Js.Outcome McpClient) (gen : GenRequest -> GenRun) : Env :=
  {| OPENAI_API_KEY := Some "sk-test";
     DEBUG := None;
     NEXUS_MCP_URL := None;
     CIVIC_ACCESS_TOKEN := None;
     inputEnded := false;
     new_URL := Js.Resolved;
     createMCPClient := fun _ => connect;
     generateText := fun _ => gen |}.

Definition sampleClient : McpClient :=
  {| client_tools := Js.Resolved {[ "search" := {| description := "web search" |} ]};
     client_close := Js.Resolved tt |}.

Definition refused : Js.Outcome McpClient :=
  Js.Rejected (Js.ErrorInstance "fetch failed").

(** The session right after [new ChatCLI()]. *)
Definition fresh (env : Env) : Session := {| self := construct env; trace := [] |}.

(** A model that proposes a tool call at every round. *)
Definition insistent (history : list CoreMessage) : Engine.Proposal :=
  {| Engine.said := EmptyString;
     Engine.proposed := [{| toolName := "search"; args := {| stringify := "{}" |} |}] |}.

Definition okResult (call : ToolCall) : ToolResult :=
  {| output := Some {| isError := false; payload := {| stringify := "[]" |} |} |}.
(** Two sample environments whose gateway refuses the connection. *)
Definition echoEnv : Env := sampleEnv refused echoRun.
Definition generatedOnlyEnv : Env :=
  {| OPENAI_API_KEY := Some "sk-test";
     DEBUG := None;
     NEXUS_MCP_URL := None;
     CIVIC_ACCESS_TOKEN := None;
     inputEnded := false;
     new_URL := Js.Resolved;
     createMCPClient := fun _ => refused;
     generateText := generatedOnlyRun |}.

(** The exchanges of the turns [hi] and [again] in each of them. *)
Definition echoExchanges : list (list CoreMessage * list CoreMessage) :=
  [([userTurn "hi"], [userTurn "hi"; answerTurn "hello"]);
   ([userTurn "hi"; answerTurn "hello"; userTurn "again"],
    [userTurn "hi"; answerTurn "hello"; userTurn "again"; answerTurn "hello"])].

(** Sample environments whose generation call throws, or says nothing. *)
Definition unknownFailureEnv : Env :=
  sampleEnv refused (failingRun (Js.OtherValue "boom")).
Definition errorFailureEnv : Env :=
  sampleEnv refused (failingRun (Js.ErrorInstance "401 Unauthorized")).
Definition silentEnv : Env := sampleEnv refused silentRun.

(** A step that reports one tool result, not flagged as errored. *)
Definition successStep : Step :=
  {| toolCalls := None;
     toolResults := Some [{| output := Some {| isError := false;
                                               payload := {| stringify := "[]" |} |} |}] |}.

(** The notices that name a tool. *)
Definition isToolNotice (e : Event) : bool :=
  match e with
  | ConsoleLog line => Js.includes "[Using tool: " line
  | _ => false
  end.

(** ** The loop over the lines typed *)

(** The last code unit of a string, if any. *)
Fixpoint lastChar (s : string) : option ascii :=
  match s with
  | EmptyString => None
  | String c EmptyString => Some c
  | String _ s' => lastChar s'
  end.

(** The number of lines the loop sends to the model: the lines before the
    first [exit] or [quit] that are not blank. *)
Fixpoint turnsTyped (stdin : list string) : nat :=
  match stdin with
  | [] => 0
  | line :: rest =>
      if exitCommand (Js.trim line) then 0
      else (if Js.truthy (Js.trim line) then 1 else 0) + turnsTyped rest
  end.

(** Whether some line typed is [exit] or [quit]. *)
Definition hasExit (stdin : list string) : bool :=
  existsb (fun line => exitCommand (Js.trim line)) stdin.

(** The client the initialization creates, if it gets that far. *)
Definition createdClient (env : Env) : option McpClient :=
  match new_URL env (MCP_SERVER_URL env) with
  | Js.Rejected _ => None
  | Js.Resolved url =>
      match createMCPClient env
              {| transport_url := url;
                 authorization :=
                   match CIVIC_ACCESS_TOKEN env with
                   | Some tok => if Js.truthy tok then Some ("Bearer " +:+ tok) else None
                   | None => None
                   end |} with
      | Js.Rejected _ => None
      | Js.Resolved client => Some client
      end
  end.

(** The fields of the object that hold the configuration of the session. *)
Definition sameConfig (c c' : ChatCLI) : Prop :=
  apiKey c' = apiKey c /\
  debugMode c' = debugMode c /\
  mcpClient c' = mcpClient c /\
  mcpTools c' = mcpTools c.

(** A request as the loop issues them for the object [c]. *)
Definition loopRequest (c : ChatCLI) (req : GenRequest) : Prop :=
  req_model req = "gpt-4o-mini" /\
  req_apiKey req = apiKey c /\
  req_system req = SYSTEM_PROMPT /\
  req_tools req = mcpTools c /\
  req_stopWhen req = 10 /\
  exists before userMessage,
    req_messages req = before ++ [userTurn userMessage] /\
    userMessage <> EmptyString /\
    Js.trim userMessage = userMessage /\
    exitCommand userMessage = false.

(** The requests of a trace, in order. *)
Fixpoint requests (tr : list Event) : list GenRequest :=
  match tr with
  | [] => []
  | GenerateText req :: tr' => req :: requests tr'
  | _ :: tr' => requests tr'
  end.

(** The object with another debug flag. *)
Definition withDebugMode (b : bool) (c : ChatCLI) : ChatCLI :=
  {| conversationHistory := conversationHistory c; apiKey := apiKey c; rlOpen := rlOpen c;
     mcpClient := mcpClient c; mcpTools := mcpTools c; debugMode := b |}.

(** A client whose tool listing fails, and one whose [close] rejects. *)
Definition brokenClient : McpClient :=
  {| client_tools := Js.Rejected (Js.ErrorInstance "tools/list failed");
     client_close := Js.Resolved tt |}.

Definition stuckClient : McpClient :=
  {| client_tools := Js.Resolved ∅;
     client_close := Js.Rejected (Js.ErrorInstance "socket hang up") |}.

(** A sample environment without a preconfigured API key. *)
Definition keylessEnv : Env :=
  {| OPENAI_API_KEY := None;
     DEBUG := Some "true";
     NEXUS_MCP_URL := Some EmptyString;
     CIVIC_ACCESS_TOKEN := Some "tok";
     inputEnded := false;
     new_URL := Js.Resolved;
     createMCPClient := fun _ => Js.Resolved sampleClient;
     generateText := fun _ => echoRun |}.

(** The transport the initialization builds for a parsed URL. *)
Definition transportFor (env : Env) (url : string) : Transport :=
  {| transport_url := url;
     authorization :=
       match CIVIC_ACCESS_TOKEN env with
       | Some tok => if Js.truthy tok then Some ("Bearer " +:+ tok) else None
       | None => None
       end |}.

(** The events of [initializeMCP], read off its three awaited calls. *)
Definition initEvents (env : Env) : list Event :=
  ConsoleLog "Connecting to Civic MCP server..." ::
  match new_URL env (MCP_SERVER_URL env) with
  | Js.Rejected error => catchEvents error
  | Js.Resolved url =>
      CreateMCPClient (transportFor env url) ::
      match createMCPClient env (transportFor env url) with
      | Js.Rejected error => catchEvents error
      | Js.Resolved client =>
          McpTools ::
          match client_tools client with
          | Js.Rejected error => catchEvents error
          | Js.Resolved tools =>
              [ConsoleLog ("Connected! Loaded " +:+ Js.numberToString (size tools)
                           +:+ " tools from Civic MCP." +:+ nl)]
          end
      end
  end.

(** The lines left for the loop once [start] has asked for the API key, if
    it had to. *)
Definition loopLines (env : Env) (stdin : list string) : list string :=
  if Js.truthy (apiKey (construct env)) then stdin else tail stdin.

(** The session in which the loop of [start] begins, for the object and
    the trace reached before the initialization of the tool gateway. *)
Definition loopEntry (env : Env) (s : Session) : Session :=
  logged (snd (initializeMCP env s))
    [ConsoleLog "Type your message and press Enter to chat.";
     ConsoleLog ("Type " +:+ dq +:+ "exit" +:+ dq +:+ " or " +:+ dq +:+ "quit" +:+ dq
                 +:+ " to end the conversation." +:+ nl)].

(** A sample environment whose client is created but rejects [close]. *)
Definition stuckEnv : Env := sampleEnv (Js.Resolved stuckClient) echoRun.

(** A step with one proposed call and two results, the second errored. *)
Definition mixedStep : Step :=
  {| toolCalls := Some [{| toolName := "search"; args := {| stringify := "{}" |} |}];
     toolResults :=
       Some [{| output := None |};
             {| output := Some {| isError := true;
                                  payload := {| stringify := "timeout" |} |} |}] |}.

(** The texts the loop sends to the model, in order: the trimmed lines
    before the first [exit] or [quit] that are not empty. *)
Fixpoint sentLines (stdin : list string) : list string :=
  match stdin with
  | [] => []
  | line :: rest =>
      if exitCommand (Js.trim line) then []
      else (if Js.truthy (Js.trim line) then [Js.trim line] else []) ++ sentLines rest
  end.

(** The last message a request carries. *)
Definition lastMessage (req : GenRequest) : option CoreMessage :=
  last (req_messages req).

(** A sample environment whose input has ended when the lines run out. *)
Definition endedEnv : Env :=
  {| OPENAI_API_KEY := Some "sk-test";
     DEBUG := None;
     NEXUS_MCP_URL := None;
     CIVIC_ACCESS_TOKEN := None;
     inputEnded := true;
     new_URL := Js.Resolved;
     createMCPClient := fun _ => Js.Resolved sampleClient;
     generateText := fun _ => echoRun |}.

(** * Properties *)

(** ** Strings *)

Example trim_example : Js.trim "  Quit " = "Quit".
Proof. reflexivity. Qed.

Example lower_example : Js.toLowerCase "QuIt" = "quit".
Proof. reflexivity. Qed.

Example number_example : Js.numberToString 12 = "12".
Proof. reflexivity. Qed.

Lemma lowerChar_whiteSpace (c : ascii) :
  Js.isWhiteSpace (Js.lowerChar c) = Js.isWhiteSpace c.
Proof. destruct c as [[] [] [] [] [] [] [] []]; reflexivity. Qed.

Lemma toLowerCase_trimStart (s : string) :
  Js.toLowerCase (Js.trimStart s) = Js.trimStart (Js.toLowerCase s).
Proof.
  induction s as [|c s IH]; simpl; [reflexivity|].
  rewrite lowerChar_whiteSpace.
  destruct (Js.isWhiteSpace c); [exact IH | reflexivity].
Qed.

Lemma toLowerCase_trimEnd (s : string) :
  Js.toLowerCase (Js.trimEnd s) = Js.trimEnd (Js.toLowerCase s).
Proof.
  induction s as [|c s IH]; simpl; [reflexivity|].
  rewrite <- IH, lowerChar_whiteSpace.
  destruct (Js.trimEnd s); simpl; [|reflexivity].
  destruct (Js.isWhiteSpace c); reflexivity.
Qed.

(** Trimming and lower-casing commute. *)
Lemma toLowerCase_trim (s : string) :
  Js.toLowerCase (Js.trim s) = Js.trim (Js.toLowerCase s).
Proof.
  unfold Js.trim. now rewrite toLowerCase_trimEnd, toLowerCase_trimStart.
Qed.

Lemma trimStart_allWhiteSpace (s : string) :
  Js.allWhiteSpace s = true -> Js.trimStart s = EmptyString.
Proof.
  induction s as [|c s IH]; simpl; [reflexivity|].
  destruct (Js.isWhiteSpace c); simpl; [exact IH | discriminate].
Qed.

Lemma trimStart_head (s : string) :
  match Js.trimStart s with
  | EmptyString => Js.allWhiteSpace s = true
  | String c _ => Js.isWhiteSpace c = false
  end.
Proof.
  induction s as [|c s IH]; simpl; [reflexivity|].
  destruct (Js.isWhiteSpace c) eqn:E; simpl; [exact IH | exact E].
Qed.

Lemma trimEnd_empty (s : string) :
  Js.trimEnd s = EmptyString -> Js.allWhiteSpace s = true.
Proof.
  induction s as [|c s IH]; simpl; [reflexivity|].
  destruct (Js.trimEnd s); [|discriminate].
  destruct (Js.isWhiteSpace c); [intros _; now apply IH | discriminate].
Qed.

(** A line trims to the empty string exactly when it is empty or made of
    white space only. *)
Lemma trim_empty_iff (s : string) :
  Js.trim s = EmptyString <-> Js.allWhiteSpace s = true.
Proof.
  unfold Js.trim. split.
  - intros H. apply trimEnd_empty in H.
    pose proof (trimStart_head s) as Hh.
    destruct (Js.trimStart s) as [|c t]; [exact Hh|].
    simpl in H. rewrite Hh in H. discriminate.
  - intros H. now rewrite (trimStart_allWhiteSpace s H).
Qed.

(** ** The methods as state transformers *)

Lemma logged_nil (s : Session) : logged s [] = s.
Proof. destruct s; unfold logged; simpl. now rewrite app_nil_r. Qed.

Lemma logged_logged (s : Session) (a b : list Event) :
  logged (logged s a) b = logged s (a ++ b).
Proof. unfold logged; simpl. now rewrite app_assoc. Qed.

Lemma consoleLog_run (line : string) (s : Session) :
  consoleLog line s = (Done tt, logged s [ConsoleLog line]).
Proof. reflexivity. Qed.

Lemma log_run (message : string) (s : Session) :
  log message s =
  (Done tt, logged s (if debugMode (self s) then [ConsoleLog message] else [])).
Proof.
  unfold log, bind, this. destruct (debugMode (self s)).
  - reflexivity.
  - now rewrite logged_nil.
Qed.

Lemma callCount_app (a b : list Event) :
  callCount (a ++ b) = callCount a + callCount b.
Proof.
  induction a as [|e a IH]; simpl; [reflexivity|].
  destruct e; simpl; now rewrite IH.
Qed.

(** A loop of [forEach] whose body only writes notices, writes the notices
    of the elements in order. *)
Lemma forEach_notices {A} (f : A -> M unit) (g : bool -> A -> list Event) (xs : list A) :
  (forall x s, f x s = (Done tt, logged s (g (debugMode (self s)) x))) ->
  forall s, forEach f xs s = (Done tt, logged s (flat_map (g (debugMode (self s))) xs)).
Proof.
  intros Hf. induction xs as [|x xs IH]; intros s; simpl.
  - unfold ret. now rewrite logged_nil.
  - unfold bind. rewrite Hf, IH. simpl. now rewrite logged_logged.
Qed.

Lemma callBody_run (call : ToolCall) (s : Session) :
  (consoleLog (nl +:+ "[Using tool: " +:+ toolName call +:+ "]") ;;;
   log ("[Args: " +:+ stringify (args call) +:+ "]")) s =
  (Done tt, logged s (callNotices (debugMode (self s)) call)).
Proof.
  unfold bind. rewrite consoleLog_run, log_run. simpl.
  now rewrite logged_logged.
Qed.

Lemma resultBody_run (result : ToolResult) (s : Session) :
  (let isError :=
     match output result with
     | Some out => isError out
     | None => false
     end in
   if isError then
     consoleLog "[Tool failed]" ;;;
     log ("[Error: " +:+ stringifyOutput (output result) +:+ "]")
   else
     log "[Tool completed successfully]") s =
  (Done tt, logged s (resultNotices (debugMode (self s)) result)).
Proof.
  unfold resultNotices, flaggedError. simpl.
  destruct (match output result with Some out => isError out | None => false end).
  - unfold bind. rewrite consoleLog_run, log_run. simpl.
    now rewrite logged_logged.
  - now rewrite log_run.
Qed.

(** The callback only writes notices: the ones of the proposed calls, then
    the ones of the results. *)
Lemma onStepFinish_run (step : Step) (s : Session) :
  onStepFinish step s = (Done tt, logged s (stepNotices (debugMode (self s)) step)).
Proof.
  unfold onStepFinish, stepNotices, bind.
  assert (Hcalls :
    forall calls s0,
      (if 0 <? length calls
       then forEach (fun call =>
              consoleLog (nl +:+ "[Using tool: " +:+ toolName call +:+ "]") ;;;
              log ("[Args: " +:+ stringify (args call) +:+ "]")) calls
       else ret tt) s0 =
      (Done tt, logged s0 (flat_map (callNotices (debugMode (self s0))) calls))).
  { intros [|c calls] s0.
    - simpl. unfold ret. now rewrite logged_nil.
    - change (0 <? length (c :: calls)) with true. cbv iota.
      apply forEach_notices. intros x s1. apply callBody_run. }
  assert (Hresults :
    forall results s0,
      (if 0 <? length results
       then forEach (fun result =>
              let isError :=
                match output result with
                | Some out => isError out
                | None => false
                end in
              if isError then
                consoleLog "[Tool failed]" ;;;
                log ("[Error: " +:+ stringifyOutput (output result) +:+ "]")
              else
                log "[Tool completed successfully]") results
       else ret tt) s0 =
      (Done tt, logged s0 (flat_map (resultNotices (debugMode (self s0))) results))).
  { intros [|r results] s0.
    - simpl. unfold ret. now rewrite logged_nil.
    - change (0 <? length (r :: results)) with true. cbv iota.
      apply forEach_notices. intros x s1. apply resultBody_run. }
  destruct (toolCalls step) as [calls|]; simpl.
  - rewrite Hcalls.
    destruct (toolResults step) as [results|]; simpl.
    + rewrite Hresults. simpl. now rewrite logged_logged.
    + unfold ret. now rewrite app_nil_r.
  - unfold ret at 1.
    destruct (toolResults step) as [results|]; simpl.
    + now rewrite Hresults.
    + unfold ret. now rewrite logged_nil.
Qed.

Lemma steps_run (reported : list Step) (s : Session) :
  forEach onStepFinish reported s =
  (Done tt, logged s (flat_map (stepNotices (debugMode (self s))) reported)).
Proof. apply forEach_notices. intros x s0. now apply onStepFinish_run. Qed.

(** The whole of [sendMessage]: one request, the notices of the steps, and
    either the transcript and the text, or the reply for the failure. *)
Lemma sendMessage_run (env : Env) (userMessage : string) (s : Session) :
  sendMessage env userMessage s =
  let c1 := afterPush userMessage (self s) in
  let run := runOf env userMessage s in
  let tr := trace s ++ GenerateText (requestOf c1)
                       :: flat_map (stepNotices (debugMode (self s))) (steps run) in
  match settled run with
  | Js.Resolved result =>
      (Done (Js.orElse (text result) "No response generated."),
       {| self := setConversationHistory (response_messages result) c1; trace := tr |})
  | Js.Rejected t => (Done (errorReply t), {| self := c1; trace := tr |})
  end.
Proof.
  unfold sendMessage, runOf, bind, assign, this, emit. simpl.
  fold (afterPush userMessage (self s)).
  rewrite steps_run. unfold logged. simpl.
  rewrite <- app_assoc. simpl.
  destruct (settled _) as [result | [message | other]]; reflexivity.
Qed.

(** ** One pass through the loop *)

Lemma getUserInput_run
  (env : Env) (prompt line : string) (rest : list string) (s : Session) :
  getUserInput env prompt (line :: rest) s
  = (Done (Js.trim line), logged s [Question prompt]).
Proof. reflexivity. Qed.

Lemma getUserInput_eof (env : Env) (prompt : string) (s : Session) :
  getUserInput env prompt [] s =
  if inputEnded env
  then (Uncaught ERR_USE_AFTER_CLOSE,
        {| self := setRlOpen false (self s); trace := trace s |})
  else (Pending, logged s [Question prompt]).
Proof.
  unfold getUserInput, question, readlineClosed, bind.
  destruct (inputEnded env); reflexivity.
Qed.

(** The shutdown branch. *)
Lemma iteration_exit (env : Env) (line : string) (rest : list string) (s : Session) :
  exitCommand (Js.trim line) = true ->
  iteration env (line :: rest) s =
  (shutdownCompletion (self s),
   {| self := setRlOpen false (self s);
      trace := trace s ++ Question "You: " :: shutdownEvents (self s) |}).
Proof.
  intros Hx. unfold iteration, bind at 1. rewrite getUserInput_run.
  unfold exitCommand in Hx. rewrite Hx.
  unfold shutdownCompletion, shutdownEvents, bind, consoleLog, emit, assign,
    this, logged, throw, ret. simpl.
  destruct (mcpClient (self s)) as [client|]; simpl.
  - destruct (client_close client); simpl;
      now rewrite <- !app_assoc.
  - now rewrite <- !app_assoc.
Qed.

(** The branch of the blank line. *)
Lemma iteration_blank (env : Env) (line : string) (rest : list string) (s : Session) :
  Js.trim line = EmptyString ->
  iteration env (line :: rest) s = (Done Continue, logged s [Question "You: "]).
Proof.
  intros Hb. unfold iteration, bind at 1. rewrite getUserInput_run, Hb.
  reflexivity.
Qed.

(** The branch that sends the line. *)
Lemma iteration_send (env : Env) (line : string) (rest : list string) (s : Session) :
  exitCommand (Js.trim line) = false ->
  Js.trim line <> EmptyString ->
  iteration env (line :: rest) s =
  let sent := sendMessage env (Js.trim line) (logged s [Question "You: "]) in
  match fst sent with
  | Done response =>
      (Done Continue,
       logged (snd sent) [ConsoleLog (nl +:+ "Assistant: " +:+ response +:+ nl)])
  | Pending => (Pending, snd sent)
  | Uncaught t => (Uncaught t, snd sent)
  end.
Proof.
  intros Hx Hb. unfold iteration, bind at 1. rewrite getUserInput_run.
  unfold exitCommand in Hx. rewrite Hx.
  destruct (Js.trim line) as [|c u] eqn:E; [congruence|].
  cbn [Js.truthy negb]. unfold bind at 1.
  destruct (sendMessage env (String c u) (logged s [Question "You: "])) as [[r| |t] s1];
    reflexivity.
Qed.

Lemma stepNotices_not_closing (debug : bool) (reported : list Step) :
  forallb (fun e => negb (closing e)) (flat_map (stepNotices debug) reported) = true.
Proof.
  apply forallb_forall. intros e He.
  apply in_flat_map in He as (step & _ & He).
  unfold stepNotices in He. apply in_app_or in He as [He | He];
    apply in_flat_map in He as (x & _ & He).
  - unfold callNotices in He. destruct debug; simpl in He;
      intuition (subst; reflexivity).
  - unfold resultNotices in He.
    destruct (flaggedError x), debug; simpl in He;
      intuition (subst; reflexivity).
Qed.

Lemma exitCommand_false (u : string) :
  Js.toLowerCase u <> "exit" -> Js.toLowerCase u <> "quit" -> exitCommand u = false.
Proof.
  intros H1 H2. unfold exitCommand.
  now rewrite !bool_decide_eq_false_2.
Qed.

Lemma exitCommand_keyword (line : string) :
  Js.toLowerCase line = "exit" \/ Js.toLowerCase line = "quit" ->
  exitCommand (Js.trim line) = true.
Proof.
  intros H. unfold exitCommand. rewrite toLowerCase_trim.
  destruct H as [-> | ->]; reflexivity.
Qed.

Lemma mainLoop_unfold (env : Env) (line : string) (rest : list string) (s : Session) :
  mainLoop env (line :: rest) s =
  match iteration env (line :: rest) s with
  | (Done Continue, s') => mainLoop env rest s'
  | (c, s') => (leaveLoop c, s')
  end.
Proof.
  simpl. unfold bind at 1.
  destruct (iteration env (line :: rest) s) as [[[|]| |t] s']; reflexivity.
Qed.

(** C3: a line that is empty or made of white space only makes the loop
    read the next line: the pass asks its question and nothing else, so no
    generation call is issued and the object, with its history, is as it
    was. *)
Theorem blank_line_is_skipped
  (env : Env) (line : string) (rest : list string) (s : Session) :
  Js.allWhiteSpace line = true ->
  let r := iteration env (line :: rest) s in
  fst r = Done Continue /\
  self (snd r) = self s /\
  conversationHistory (self (snd r)) = conversationHistory (self s) /\
  trace (snd r) = trace s ++ [Question "You: "] /\
  callCount (trace (snd r)) = callCount (trace s) /\
  mainLoop env (line :: rest) s = mainLoop env rest (snd r).
Proof.
  intros Hws r. apply trim_empty_iff in Hws.
  assert (Hr : r = (Done Continue, logged s [Question "You: "]))
    by (apply iteration_blank; exact Hws).
  rewrite mainLoop_unfold. fold r. rewrite Hr. simpl.
  repeat split; try reflexivity.
  rewrite callCount_app. simpl. lia.
Qed.

Lemma blank_line_is_skipped_witness :
  Js.allWhiteSpace "   " = true /\
  let env := sampleEnv refused echoRun in
  let r := iteration env ["   "; "hi"] (fresh env) in
  fst r = Done Continue /\
  self (snd r) = self (fresh env) /\
  conversationHistory (self (snd r)) = conversationHistory (self (fresh env)) /\
  trace (snd r) = trace (fresh env) ++ [Question "You: "] /\
  callCount (trace (snd r)) = callCount (trace (fresh env)) /\
  mainLoop env ["   "; "hi"] (fresh env) = mainLoop env ["hi"] (snd r).
Proof.
  split; [reflexivity|].
  apply (blank_line_is_skipped (sampleEnv refused echoRun) "   " ["hi"]
           (fresh (sampleEnv refused echoRun))).
  reflexivity.
Defined.

(** What [sendMessage] leaves alone, and the events it adds: it always
    returns, touches no field but the history, and issues one request. *)
Lemma sendMessage_frame (env : Env) (userMessage : string) (s : Session) :
  let r := sendMessage env userMessage s in
  (exists answer, fst r = Done answer) /\
  apiKey (self (snd r)) = apiKey (self s) /\
  rlOpen (self (snd r)) = rlOpen (self s) /\
  mcpClient (self (snd r)) = mcpClient (self s) /\
  mcpTools (self (snd r)) = mcpTools (self s) /\
  debugMode (self (snd r)) = debugMode (self s) /\
  trace (snd r) =
    trace s ++ GenerateText (requestOf (afterPush userMessage (self s)))
            :: flat_map (stepNotices (debugMode (self s)))
                 (steps (runOf env userMessage s)).
Proof.
  cbv zeta. rewrite sendMessage_run. cbv zeta.
  destruct (settled (runOf env userMessage s)) as [result | t]; simpl;
    (split; [eexists; reflexivity | do 5 (split; [reflexivity|]); reflexivity]).
Qed.

(** What a pass that does not shut down leaves behind: the loop goes on,
    the terminal and the client handle are as they were, and none of the
    events of the pass closes anything. *)
Lemma iteration_goes_on (env : Env) (line : string) (rest : list string) (s : Session) :
  exitCommand (Js.trim line) = false ->
  let r := iteration env (line :: rest) s in
  fst r = Done Continue /\
  rlOpen (self (snd r)) = rlOpen (self s) /\
  mcpClient (self (snd r)) = mcpClient (self s) /\
  mcpTools (self (snd r)) = mcpTools (self s) /\
  exists evs, trace (snd r) = trace s ++ evs /\
              forallb (fun e => negb (closing e)) evs = true.
Proof.
  intros Hx r. subst r.
  destruct (decide (Js.trim line = EmptyString)) as [Hb | Hb].
  - rewrite (iteration_blank env line rest s Hb). simpl.
    do 4 (split; [reflexivity|]). now exists [Question "You: "].
  - rewrite (iteration_send env line rest s Hx Hb). cbv zeta.
    destruct (sendMessage_frame env (Js.trim line) (logged s [Question "You: "]))
      as ((answer & Ha) & _ & Hrl & Hcl & Htl & _ & Htr).
    destruct (sendMessage env (Js.trim line) (logged s [Question "You: "]))
      as [c s1].
    simpl in Ha, Hrl, Hcl, Htl, Htr. subst c. simpl.
    split; [reflexivity|]. do 3 (split; [assumption|]).
    eexists. split.
    + rewrite Htr, <- !app_assoc. reflexivity.
    + simpl. rewrite forallb_app, stepNotices_not_closing. reflexivity.
Qed.

(** C4: a line equal to [exit] or [quit] up to the case of its letters
    shuts the session down: the pass issues no generation call, closes the
    terminal interface, closes the tool transport exactly when the client
    handle is not null, and the loop is left.  No other line does: a line
    whose trimmed, lower-cased text is neither keyword lets the loop go on
    and closes nothing. *)
Theorem exit_and_quit_shut_down
  (env : Env) (line : string) (rest : list string) (s : Session) :
  Js.toLowerCase line = "exit" \/ Js.toLowerCase line = "quit" ->
  (let r := iteration env (line :: rest) s in
   fst r = shutdownCompletion (self s) /\
   fst r <> Done Continue /\
   trace (snd r) =
     trace s ++ [Question "You: "; ConsoleLog (nl +:+ "Goodbye!"); RlClose]
             ++ match mcpClient (self s) with
                | Some _ => [McpClose]
                | None => []
                end /\
   callCount (trace (snd r)) = callCount (trace s) /\
   rlOpen (self (snd r)) = false /\
   conversationHistory (self (snd r)) = conversationHistory (self s) /\
   mainLoop env (line :: rest) s = (leaveLoop (fst r), snd r)) /\
  (forall other (s0 : Session),
     Js.toLowerCase (Js.trim other) <> "exit" ->
     Js.toLowerCase (Js.trim other) <> "quit" ->
     let r := iteration env (other :: rest) s0 in
     fst r = Done Continue /\
     rlOpen (self (snd r)) = rlOpen (self s0) /\
     exists evs, trace (snd r) = trace s0 ++ evs /\
                 forallb (fun e => negb (closing e)) evs = true).
Proof.
  intros Hkey. split.
  - intros r. subst r. rewrite mainLoop_unfold.
    rewrite (iteration_exit env line rest s (exitCommand_keyword line Hkey)).
    simpl. unfold shutdownCompletion, shutdownEvents.
    destruct (mcpClient (self s)) as [client|]; simpl.
    + rewrite !callCount_app. simpl.
      destruct (client_close client); simpl;
        (repeat split; [discriminate | lia]).
    + rewrite !callCount_app. simpl.
      repeat split; [discriminate | lia].
  - intros other s0 H1 H2 r.
    destruct (iteration_goes_on env other rest s0 (exitCommand_false _ H1 H2))
      as (Hc & Hrl & _ & _ & Hev).
    repeat split; assumption.
Qed.

Lemma exit_and_quit_shut_down_witness :
  let env := sampleEnv (Js.Resolved sampleClient) echoRun in
  let s := {| self := setMcpClient (Some sampleClient) (construct env); trace := [] |} in
  (Js.toLowerCase "QuIt" = "exit" \/ Js.toLowerCase "QuIt" = "quit") /\
  trace (snd (iteration env ["QuIt"; "hi"] s)) =
    [Question "You: "; ConsoleLog (nl +:+ "Goodbye!"); RlClose; McpClose] /\
  mainLoop env ["QuIt"; "hi"] s = (Done tt, snd (iteration env ["QuIt"; "hi"] s)).
Proof.
  intros env s.
  assert (Hkey : Js.toLowerCase "QuIt" = "exit" \/ Js.toLowerCase "QuIt" = "quit")
    by (right; reflexivity).
  split; [exact Hkey|].
  destruct (exit_and_quit_shut_down env "QuIt" ["hi"] s Hkey)
    as ((_ & _ & Htr & _ & _ & _ & Hloop) & _).
  split; [exact Htr | exact Hloop].
Defined.

(** ** The tool gateway *)

Lemma initializeMCP_catch_run (error : Js.Thrown) (s : Session) :
  initializeMCP_catch error s = (Done tt, logged s (catchEvents error)).
Proof.
  unfold initializeMCP_catch, catchEvents, bind, consoleLog, emit, ret, logged.
  destruct error as [message | other]; simpl; now rewrite <- !app_assoc.
Qed.

(** A failed initialization is caught: the method returns, the tool mapping
    and the history are as they were, and the trace ends with what the
    [catch] block writes. *)
Lemma initializeMCP_failed (env : Env) (s : Session) (t : Js.Thrown) :
  initFailure env = Some t ->
  let r := initializeMCP env s in
  fst r = Done tt /\
  mcpTools (self (snd r)) = mcpTools (self s) /\
  conversationHistory (self (snd r)) = conversationHistory (self s) /\
  debugMode (self (snd r)) = debugMode (self s) /\
  exists before, trace (snd r) = trace s ++ before ++ catchEvents t.
Proof.
  unfold initFailure, initializeMCP, initializeMCP_catch, catchEvents,
    bind, consoleLog, emit, assign, this, ret.
  intros Hf. cbv zeta.
  destruct (new_URL env (MCP_SERVER_URL env)) as [url | e].
  - destruct (createMCPClient env _) as [client | e].
    + destruct (client_tools client) as [tools | e]; [discriminate|].
      injection Hf as ->. destruct t; simpl;
        (do 4 (split; [reflexivity|]);
         rewrite <- !app_assoc; simpl; eexists [_; _; _]; reflexivity).
    + injection Hf as ->. destruct t; simpl;
        (do 4 (split; [reflexivity|]);
         rewrite <- !app_assoc; simpl; eexists [_; _]; reflexivity).
  - injection Hf as ->. destruct t; simpl;
      (do 4 (split; [reflexivity|]);
       rewrite <- !app_assoc; simpl; eexists [_]; reflexivity).
Qed.

(** A successful initialization keeps the client and the tools it lists. *)
Lemma initializeMCP_connected (env : Env) (s : Session) :
  initFailure env = None ->
  let r := initializeMCP env s in
  fst r = Done tt /\
  exists client,
    mcpClient (self (snd r)) = Some client /\
    client_tools client = Js.Resolved (mcpTools (self (snd r))).
Proof.
  unfold initFailure, initializeMCP, bind, consoleLog, emit, assign, this, ret.
  intros Hf. cbv zeta.
  destruct (new_URL env (MCP_SERVER_URL env)) as [url | e]; [|discriminate].
  destruct (createMCPClient env _) as [client | e]; [|discriminate].
  destruct (client_tools client) as [tools | e] eqn:Et; [|discriminate].
  simpl. split; [reflexivity|]. exists client. split; [reflexivity | exact Et].
Qed.

Lemma startsWith_append (p rest : string) : Js.startsWith p (p +:+ rest) = true.
Proof.
  induction p as [|c p IH]; simpl; [reflexivity|].
  rewrite bool_decide_eq_true_2 by reflexivity. exact IH.
Qed.

Lemma includes_append (before p rest : string) :
  Js.includes p (before +:+ p +:+ rest) = true.
Proof.
  induction before as [|c before IH]; simpl.
  - destruct (p +:+ rest) eqn:E; simpl;
      rewrite <- E, startsWith_append; reflexivity.
  - rewrite IH. apply orb_true_r.
Qed.

Lemma loggedText_In (needle line : string) (tr : list Event) :
  In (ConsoleLog line) tr -> Js.includes needle line = true ->
  loggedText needle tr = true.
Proof.
  intros Hin Hinc. unfold loggedText. apply existsb_exists.
  exists (ConsoleLog line). split; assumption.
Qed.

Lemma orElse_text (t fallback : string) :
  t <> EmptyString -> Js.orElse t fallback = t.
Proof. destruct t; [congruence | reflexivity]. Qed.

(** C5, as the code has it: a failure of the initialization, wherever it
    happens, is caught; the warning is written, with the error's message
    when the thrown value is an instance of [Error]; the tool mapping stays
    empty, and a later turn whose generation call succeeds with some text
    carries the empty mapping and returns that text. *)
Theorem gateway_failure_is_not_fatal (env : Env) (s : Session) (t : Js.Thrown) :
  initFailure env = Some t ->
  mcpTools (self s) = ∅ ->
  let r := initializeMCP env s in
  fst r = Done tt /\
  mcpTools (self (snd r)) = ∅ /\
  (exists before, trace (snd r) = trace s ++ before ++ catchEvents t) /\
  In (ConsoleLog "Warning: Could not connect to Civic MCP server.") (trace (snd r)) /\
  (forall message, t = Js.ErrorInstance message ->
     In (ConsoleLog ("Error: " +:+ message +:+ nl)) (trace (snd r)) /\
     loggedText message (trace (snd r)) = true) /\
  (forall userMessage result,
     settled (runOf env userMessage (snd r)) = Js.Resolved result ->
     text result <> EmptyString ->
     req_tools (requestOf (afterPush userMessage (self (snd r)))) = ∅ /\
     fst (sendMessage env userMessage (snd r)) = Done (text result)).
Proof.
  intros Hf Hempty r.
  destruct (initializeMCP_failed env s t Hf) as (Hd & Ht & _ & _ & before & Htr).
  fold r in Hd, Ht, Htr.
  split; [exact Hd|]. split; [congruence|]. split; [now exists before|].
  assert (Hwarn : In (ConsoleLog "Warning: Could not connect to Civic MCP server.")
                     (trace (snd r))).
  { rewrite Htr. apply in_or_app. right. apply in_or_app. right. now left. }
  split; [exact Hwarn|]. split.
  - intros message ->.
    assert (Hin : In (ConsoleLog ("Error: " +:+ message +:+ nl)) (trace (snd r))).
    { rewrite Htr. apply in_or_app. right. apply in_or_app. right.
      right. now left. }
    split; [exact Hin|].
    apply (loggedText_In _ _ _ Hin), includes_append.
  - intros userMessage result Hres Htext. split.
    + simpl. congruence.
    + rewrite sendMessage_run. cbv zeta. rewrite Hres. simpl.
      now rewrite orElse_text.
Qed.

Lemma gateway_failure_is_not_fatal_witness :
  let env := sampleEnv refused echoRun in
  initFailure env = Some (Js.ErrorInstance "fetch failed") /\
  mcpTools (self (fresh env)) = ∅ /\
  loggedText "fetch failed" (trace (snd (initializeMCP env (fresh env)))) = true /\
  fst (sendMessage env "hi" (snd (initializeMCP env (fresh env)))) = Done "hello".
Proof.
  intros env.
  assert (Hf : initFailure env = Some (Js.ErrorInstance "fetch failed")) by reflexivity.
  assert (He : mcpTools (self (fresh env)) = ∅) by reflexivity.
  split; [exact Hf|]. split; [exact He|].
  destruct (gateway_failure_is_not_fatal env (fresh env) _ Hf He)
    as (_ & _ & _ & _ & Hmsg & Hturn).
  split.
  - exact (proj2 (Hmsg "fetch failed" eq_refl)).
  - refine (proj2 (Hturn "hi" {| text := "hello"; response_messages := _ |} eq_refl _)).
    discriminate.
Defined.

(** C5, as it is stated, fails when the value thrown is not an instance of
    [Error]: the warning is written without anything of the failure. *)
Lemma gateway_warning_without_message :
  let env := sampleEnv (Js.Rejected (Js.OtherValue "boom")) echoRun in
  initFailure env = Some (Js.OtherValue "boom") /\
  trace (snd (initializeMCP env (fresh env))) =
    [ConsoleLog "Connecting to Civic MCP server...";
     CreateMCPClient {| transport_url := "https://nexus.civic.com/hub/mcp";
                        authorization := None |};
     ConsoleLog "Warning: Could not connect to Civic MCP server.";
     ConsoleLog ("Continuing without MCP tools..." +:+ nl)] /\
  loggedText "boom" (trace (snd (initializeMCP env (fresh env)))) = false.
Proof. intros env. split; [reflexivity|]. split; reflexivity. Qed.

(** ** The tool mapping through the session *)

Lemma keepsTools_triple {A} (m : M A) (P : gmap string Tool -> Prop) :
  keepsTools m -> toolsTriple P m P.
Proof. intros Hk s HP. now rewrite Hk. Qed.

Lemma toolsTriple_bind {A B} (m : M A) (k : A -> M B)
  (P Q R : gmap string Tool -> Prop) :
  toolsTriple P m Q ->
  (forall a, toolsTriple Q (k a) R) ->
  (forall t, Q t -> R t) ->
  toolsTriple P (bind m k) R.
Proof.
  intros Hm Hk HQR s HP. specialize (Hm s HP). unfold bind.
  destruct (m s) as [[a| |t] s']; simpl in *.
  - now apply Hk.
  - now apply HQR.
  - now apply HQR.
Qed.

Lemma keepsTools_bind {A B} (m : M A) (k : A -> M B) :
  keepsTools m -> (forall a, keepsTools (k a)) -> keepsTools (bind m k).
Proof.
  intros Hm Hk s. unfold bind. specialize (Hm s).
  destruct (m s) as [[a| |t] s']; simpl in *; [|assumption..].
  now rewrite Hk.
Qed.

Lemma keepsTools_ret {A} (a : A) : keepsTools (ret a).
Proof. intros s. reflexivity. Qed.

Lemma keepsTools_emit (e : Event) : keepsTools (emit e).
Proof. intros s. reflexivity. Qed.

Lemma keepsTools_never {A} : keepsTools (@never A).
Proof. intros s. reflexivity. Qed.

Lemma keepsTools_throw {A} (t : Js.Thrown) : keepsTools (@throw A t).
Proof. intros s. reflexivity. Qed.

Lemma keepsTools_assign (f : ChatCLI -> ChatCLI) :
  (forall c, mcpTools (f c) = mcpTools c) -> keepsTools (assign f).
Proof. intros Hf s. simpl. apply Hf. Qed.

Lemma keepsTools_question (closed : bool) (prompt : string) (stdin : list string) :
  keepsTools (question closed prompt stdin).
Proof.
  unfold question. destruct closed.
  - apply keepsTools_bind; [now apply keepsTools_assign|]. intros _.
    apply keepsTools_throw.
  - apply keepsTools_bind; [apply keepsTools_emit|]. intros _.
    destruct stdin; [apply keepsTools_never | apply keepsTools_ret].
Qed.

Lemma keepsTools_promptForApiKey (stdin : list string) :
  keepsTools (promptForApiKey stdin).
Proof.
  apply keepsTools_bind; [apply keepsTools_question|]. intros key.
  apply keepsTools_bind; [now apply keepsTools_assign|]. intros _.
  apply keepsTools_emit.
Qed.

Lemma keepsTools_sendMessage (env : Env) (userMessage : string) :
  keepsTools (sendMessage env userMessage).
Proof. intros s. apply (sendMessage_frame env userMessage s). Qed.

Lemma keepsTools_iteration (env : Env) (stdin : list string) :
  keepsTools (iteration env stdin).
Proof.
  unfold iteration.
  apply keepsTools_bind.
  { apply keepsTools_bind; [apply keepsTools_question|].
    intros answer. apply keepsTools_ret. }
  intros userInput.
  destruct (bool_decide (Js.toLowerCase userInput = "exit")
            || bool_decide (Js.toLowerCase userInput = "quit")).
  - apply keepsTools_bind; [apply keepsTools_emit|]. intros _.
    apply keepsTools_bind; [now apply keepsTools_assign|]. intros _.
    apply keepsTools_bind; [apply keepsTools_emit|]. intros _.
    apply keepsTools_bind; [intros s; reflexivity|]. intros me.
    apply keepsTools_bind; [|intros _; apply keepsTools_ret].
    destruct (mcpClient me) as [client|]; [|apply keepsTools_ret].
    apply keepsTools_bind; [apply keepsTools_emit|]. intros _.
    destruct (client_close client); [apply keepsTools_ret | apply keepsTools_throw].
  - destruct (negb (Js.truthy userInput)); [apply keepsTools_ret|].
    apply keepsTools_bind; [apply keepsTools_sendMessage|]. intros response.
    apply keepsTools_bind; [apply keepsTools_emit|]. intros _.
    apply keepsTools_ret.
Qed.

Lemma keepsTools_mainLoop (env : Env) (stdin : list string) :
  keepsTools (mainLoop env stdin).
Proof.
  induction stdin as [|line rest IH]; simpl.
  - apply keepsTools_bind; [apply keepsTools_iteration|].
    intros [|]; apply keepsTools_ret.
  - apply keepsTools_bind; [apply keepsTools_iteration|].
    intros [|]; [exact IH | apply keepsTools_ret].
Qed.

Lemma initializeMCP_tools (env : Env) (s : Session) :
  let s' := snd (initializeMCP env s) in
  match initFailure env with
  | Some _ => mcpTools (self s') = mcpTools (self s)
  | None => exists client,
      mcpClient (self s') = Some client /\
      client_tools client = Js.Resolved (mcpTools (self s'))
  end.
Proof.
  cbv zeta. destruct (initFailure env) as [t|] eqn:Ef.
  - apply (initializeMCP_failed env s t Ef).
  - apply (initializeMCP_connected env s Ef).
Qed.

Lemma start_tools (env : Env) (stdin : list string) :
  toolsTriple (fun t => t = ∅) (start env stdin) emptyOrListed.
Proof.
  unfold start.
  apply toolsTriple_bind with (Q := fun t => t = ∅);
    [apply keepsTools_triple, keepsTools_emit | intros _ | now left].
  apply toolsTriple_bind with (Q := fun t => t = ∅);
    [apply keepsTools_triple, keepsTools_emit | intros _ | now left].
  apply toolsTriple_bind with (Q := fun t => t = ∅);
    [intros s Hs; exact Hs | intros me | now left].
  apply toolsTriple_bind with (Q := fun t => t = ∅); [| intros rest | now left].
  { apply keepsTools_triple.
    destruct (negb (Js.truthy (apiKey me))).
    - apply keepsTools_bind; [apply keepsTools_promptForApiKey|].
      intros _. apply keepsTools_ret.
    - apply keepsTools_bind; [apply keepsTools_emit|].
      intros _. apply keepsTools_ret. }
  apply toolsTriple_bind with (Q := emptyOrListed); [| intros _ | trivial].
  { intros s Hs. pose proof (initializeMCP_tools env s) as Hi. cbv zeta in Hi.
    destruct (initFailure env).
    - left. congruence.
    - right. destruct Hi as (client & _ & Hc). now exists client. }
  apply keepsTools_triple.
  apply keepsTools_bind; [apply keepsTools_emit|]. intros _.
  apply keepsTools_bind; [apply keepsTools_emit|]. intros _.
  apply keepsTools_mainLoop.
Qed.

(** C9: the tool mapping is assigned by the initialization only, to the
    tools listed when it succeeds, and is left as it was (empty) when it
    fails; sending a message, a pass of the loop (the shutdown included)
    and the whole loop leave it as they find it, so that the program ends
    with the empty mapping or with the mapping a client listed. *)
Theorem tool_mapping_is_frozen (env : Env) :
  (forall s,
     let s' := snd (initializeMCP env s) in
     match initFailure env with
     | Some _ => mcpTools (self s') = mcpTools (self s)
     | None => exists client,
         mcpClient (self s') = Some client /\
         client_tools client = Js.Resolved (mcpTools (self s'))
     end) /\
  (forall userMessage s,
     mcpTools (self (snd (sendMessage env userMessage s))) = mcpTools (self s)) /\
  (forall stdin s,
     mcpTools (self (snd (iteration env stdin s))) = mcpTools (self s)) /\
  (forall stdin s,
     mcpTools (self (snd (mainLoop env stdin s))) = mcpTools (self s)) /\
  (forall stdin, emptyOrListed (mcpTools (self (snd (chat env stdin))))).
Proof.
  split; [exact (initializeMCP_tools env)|].
  split; [exact (keepsTools_sendMessage env)|].
  split; [exact (keepsTools_iteration env)|].
  split; [exact (keepsTools_mainLoop env)|].
  intros stdin. unfold chat.
  pose proof (start_tools env stdin {| self := construct env; trace := [] |} eq_refl)
    as Hs.
  destruct (start env stdin _) as [[[]| |t] s']; exact Hs.
Qed.

(** ** The history over successful turns *)

Lemma sendMessage_resolved
  (env : Env) (userMessage : string) (s : Session) (result : GenResult) :
  settled (runOf env userMessage s) = Js.Resolved result ->
  fst (sendMessage env userMessage s) = Done (Js.orElse (text result) "No response generated.") /\
  conversationHistory (self (snd (sendMessage env userMessage s))) = response_messages result.
Proof.
  intros Hres. rewrite sendMessage_run. cbv zeta. rewrite Hres. split; reflexivity.
Qed.

Lemma sendMessage_rejected
  (env : Env) (userMessage : string) (s : Session) (t : Js.Thrown) :
  settled (runOf env userMessage s) = Js.Rejected t ->
  fst (sendMessage env userMessage s) = Done (errorReply t) /\
  self (snd (sendMessage env userMessage s)) = afterPush userMessage (self s).
Proof.
  intros Hrej. rewrite sendMessage_run. cbv zeta. rewrite Hrej. split; reflexivity.
Qed.

Lemma transcripts_snoc exchanges (x : list CoreMessage * list CoreMessage) :
  transcripts (exchanges ++ [x]) = transcripts exchanges ++ [x.2].
Proof. unfold transcripts. now rewrite map_app. Qed.

Lemma turns_history (env : Env) (s s' : Session) exchanges :
  Turns env s exchanges s' ->
  conversationHistory (self s') =
  default (conversationHistory (self s)) (last (transcripts exchanges)).
Proof.
  induction 1 as [s | s exchanges s1 u result answer s2 _ _ Hres Hsend].
  - reflexivity.
  - rewrite transcripts_snoc, last_snoc. simpl.
    destruct (sendMessage_resolved env u s1 result Hres) as [_ Hh].
    rewrite Hsend in Hh. exact Hh.
Qed.

Lemma turns_grow (env : Env) (s s' : Session) exchanges :
  Turns env s exchanges s' ->
  Forall extendsSent exchanges ->
  conversationHistory (self s) `prefix_of` conversationHistory (self s') /\
  length (conversationHistory (self s)) + length exchanges
    <= length (conversationHistory (self s')).
Proof.
  induction 1 as [s | s exchanges s1 u result answer s2 _ IH Hres Hsend]; intros Hall.
  - split; [reflexivity | simpl; lia].
  - rewrite Forall_app, Forall_singleton in Hall. destruct Hall as [Hall Hlast].
    unfold extendsSent in Hlast. simpl in Hlast.
    destruct (IH Hall) as [Hpre Hlen].
    destruct (sendMessage_resolved env u s1 result Hres) as [_ Hh].
    rewrite Hsend in Hh. simpl in Hh. rewrite Hh.
    split.
    + etransitivity; [exact Hpre|].
      etransitivity; [|exact Hlast]. now apply prefix_app_r.
    + apply prefix_length in Hlast. rewrite !length_app in *. simpl in *. lia.
Qed.

Lemma turns_echo :
  Turns echoEnv (fresh echoEnv) echoExchanges
    (afterTurns echoEnv ["hi"; "again"] (fresh echoEnv)).
Proof.
  change echoExchanges with
    (([] ++ [([userTurn "hi"], [userTurn "hi"; answerTurn "hello"])]) ++
     [(conversationHistory (self (afterTurns echoEnv ["hi"] (fresh echoEnv)))
         ++ [userTurn "again"],
       response_messages
         {| text := "hello";
            response_messages :=
              [userTurn "hi"; answerTurn "hello"; userTurn "again"; answerTurn "hello"] |})]).
  eapply Turns_snoc with (userMessage := "again") (answer := "hello").
  - change ([userTurn "hi"], [userTurn "hi"; answerTurn "hello"]) with
      (conversationHistory (self (fresh echoEnv)) ++ [userTurn "hi"],
       response_messages
         {| text := "hello";
            response_messages := [userTurn "hi"; answerTurn "hello"] |}).
    eapply Turns_snoc with (userMessage := "hi") (answer := "hello").
    + apply Turns_nil.
    + reflexivity.
    + reflexivity.
  - reflexivity.
  - reflexivity.
Qed.

(** The assignment of line 122 on every environment: a successful
    [sendMessage] makes the history the messages of the response, so after
    a sequence of successful turns the history is what the last call
    returned.  Only when every call returns what was sent with its own
    messages after it does the history grow, by one message per turn at
    least. *)
Lemma history_is_last_transcript (env : Env) (s s' : Session) exchanges :
  Turns env s exchanges s' ->
  (forall userMessage result,
     settled (runOf env userMessage s') = Js.Resolved result ->
     conversationHistory (self (snd (sendMessage env userMessage s')))
     = response_messages result) /\
  conversationHistory (self s') =
    default (conversationHistory (self s)) (last (transcripts exchanges)) /\
  (forall transcript,
     last (transcripts exchanges) = Some transcript ->
     length (conversationHistory (self s')) = length transcript) /\
  (Forall extendsSent exchanges ->
   conversationHistory (self s) `prefix_of` conversationHistory (self s') /\
   length (conversationHistory (self s)) + length exchanges
     <= length (conversationHistory (self s'))).
Proof.
  intros Hturns. split; [|split; [|split]].
  - intros userMessage result Hres.
    apply (sendMessage_resolved env userMessage s' result Hres).
  - apply (turns_history env s s' exchanges Hturns).
  - intros transcript Hlast.
    rewrite (turns_history env s s' exchanges Hturns), Hlast. reflexivity.
  - apply (turns_grow env s s' exchanges Hturns).
Qed.

Lemma history_is_last_transcript_witness :
  Turns echoEnv (fresh echoEnv) echoExchanges
    (afterTurns echoEnv ["hi"; "again"] (fresh echoEnv)) /\
  conversationHistory (self (afterTurns echoEnv ["hi"; "again"] (fresh echoEnv))) =
    [userTurn "hi"; answerTurn "hello"; userTurn "again"; answerTurn "hello"] /\
  length (conversationHistory (self (afterTurns echoEnv ["hi"; "again"] (fresh echoEnv))))
    = 4.
Proof.
  split; [exact turns_echo|].
  destruct (history_is_last_transcript echoEnv (fresh echoEnv) _ _ turns_echo)
    as (_ & Hlast & Hlen & _).
  split.
  - exact Hlast.
  - exact (Hlen _ eq_refl).
Defined.

(** C1: the code at the failing input.  The generation call returns, as
    [generateText] of the AI SDK does, the messages it generated: one
    assistant message per call.  The request of the turn [hi] carries the
    user's message, but after the turn the history is the answer alone: the
    message pushed at line 86 is gone.  The request of the next turn
    [again] then carries the first answer and the new message, without the
    first message of the user; and after the two turns the history holds
    one message, the second answer, where the conversation had four.  On
    the failure path of the same method the user's message stays. *)
Theorem history_loses_the_conversation :
  let s0 := fresh generatedOnlyEnv in
  let s1 := snd (sendMessage generatedOnlyEnv "hi" s0) in
  let s2 := snd (sendMessage generatedOnlyEnv "again" s1) in
  fst (sendMessage generatedOnlyEnv "hi" s0) = Done "answer 0" /\
  fst (sendMessage generatedOnlyEnv "again" s1) = Done "answer 1" /\
  map req_messages (requests (trace s2)) =
    [[userTurn "hi"]; [answerTurn "answer 0"; userTurn "again"]] /\
  conversationHistory (self s1) = [answerTurn "answer 0"] /\
  conversationHistory (self s2) = [answerTurn "answer 1"] /\
  length (conversationHistory (self s2)) = 1 /\
  conversationHistory
    (self (snd (sendMessage errorFailureEnv "hi" (fresh errorFailureEnv))))
  = [userTurn "hi"].
Proof.
  cbv zeta. split; [reflexivity|]. split; [reflexivity|]. split; [reflexivity|].
  split; [reflexivity|]. split; [reflexivity|]. split; reflexivity.
Qed.

(** ** Failed turns *)

Lemma last_logged (s : Session) (e : Event) : last (trace (logged s [e])) = Some e.
Proof. simpl. apply last_snoc. Qed.

(** C2, as the code has it: when the generation call throws, the failure
    is caught and the pass of the loop goes on: what is printed in place of
    the assistant's reply is [Error: ] followed by the message when the
    thrown value is an instance of [Error], and a fixed sentence without
    that prefix otherwise; the user's message stays in the history, and
    the next turn is served with it. *)
Theorem failed_turn_is_survived
  (env : Env) (line : string) (rest : list string) (s : Session) (t : Js.Thrown) :
  exitCommand (Js.trim line) = false ->
  Js.trim line <> EmptyString ->
  settled (runOf env (Js.trim line) (logged s [Question "You: "])) = Js.Rejected t ->
  let r := iteration env (line :: rest) s in
  fst (sendMessage env (Js.trim line) (logged s [Question "You: "]))
    = Done match t with
           | Js.ErrorInstance message => "Error: " +:+ message
           | Js.OtherValue _ => "An unknown error occurred."
           end /\
  fst r = Done Continue /\
  conversationHistory (self (snd r)) =
    conversationHistory (self s) ++ [userTurn (Js.trim line)] /\
  last (trace (snd r)) =
    Some (ConsoleLog (nl +:+ "Assistant: " +:+ errorReply t +:+ nl)) /\
  mainLoop env (line :: rest) s = mainLoop env rest (snd r) /\
  (forall next,
     req_messages (requestOf (afterPush next (self (snd r)))) =
       conversationHistory (self s) ++ [userTurn (Js.trim line); userTurn next] /\
     exists answer, fst (sendMessage env next (snd r)) = Done answer).
Proof.
  intros Hx Hb Hrej r.
  destruct (sendMessage_rejected env _ _ t Hrej) as [Hreply Hself].
  split; [exact Hreply|].
  assert (Hr : r = (Done Continue,
                    logged (snd (sendMessage env (Js.trim line)
                                   (logged s [Question "You: "])))
                      [ConsoleLog (nl +:+ "Assistant: " +:+ errorReply t +:+ nl)])).
  { subst r. rewrite (iteration_send env line rest s Hx Hb). cbv zeta.
    now rewrite Hreply. }
  rewrite mainLoop_unfold. fold r. rewrite Hr.
  split; [reflexivity|]. split; [|split; [|split]].
  - simpl. rewrite Hself. reflexivity.
  - apply last_logged.
  - reflexivity.
  - intros next. split.
    + simpl. rewrite Hself. simpl. now rewrite <- app_assoc.
    + apply sendMessage_frame.
Qed.

Lemma failed_turn_is_survived_witness :
  exitCommand (Js.trim " hi ") = false /\
  Js.trim " hi " <> EmptyString /\
  fst (iteration errorFailureEnv [" hi "; "again"] (fresh errorFailureEnv)) = Done Continue /\
  conversationHistory
    (self (snd (iteration errorFailureEnv [" hi "; "again"] (fresh errorFailureEnv))))
  = [userTurn "hi"] /\
  last (trace (snd (iteration errorFailureEnv [" hi "; "again"] (fresh errorFailureEnv))))
  = Some (ConsoleLog (nl +:+ "Assistant: Error: 401 Unauthorized" +:+ nl)).
Proof.
  assert (Hx : exitCommand (Js.trim " hi ") = false) by reflexivity.
  assert (Hb : Js.trim " hi " <> EmptyString) by discriminate.
  split; [exact Hx|]. split; [exact Hb|].
  destruct (failed_turn_is_survived errorFailureEnv " hi " ["again"]
              (fresh errorFailureEnv) (Js.ErrorInstance "401 Unauthorized")
              Hx Hb eq_refl)
    as (_ & Hc & Hh & Hl & _).
  split; [exact Hc|]. split; [exact Hh | exact Hl].
Defined.

(** C2, as it is stated, fails when the value thrown is not an instance of
    [Error]: the reply has no prefix that tells it from the assistant's
    text. *)
Lemma unknown_failure_has_no_prefix :
  settled (runOf unknownFailureEnv "hi" (fresh unknownFailureEnv))
    = Js.Rejected (Js.OtherValue "boom") /\
  fst (sendMessage unknownFailureEnv "hi" (fresh unknownFailureEnv))
    = Done "An unknown error occurred." /\
  Js.startsWith "Error: " "An unknown error occurred." = false /\
  last (trace (snd (iteration unknownFailureEnv ["hi"] (fresh unknownFailureEnv))))
    = Some (ConsoleLog (nl +:+ "Assistant: An unknown error occurred." +:+ nl)).
Proof. split; [reflexivity|]. split; [reflexivity|]. split; reflexivity. Qed.

(** C10: when the generation call throws a value that is not an instance
    of [Error], [sendMessage] returns the sentence [An unknown error
    occurred.], which does not start with [Error: ]; when it throws an
    instance of [Error], the reply is [Error: ] followed by its message. *)
Theorem unknown_error_reply
  (env : Env) (userMessage : string) (s : Session) (rendering : string) :
  settled (runOf env userMessage s) = Js.Rejected (Js.OtherValue rendering) ->
  fst (sendMessage env userMessage s) = Done "An unknown error occurred." /\
  Js.startsWith "Error: " "An unknown error occurred." = false /\
  (forall env' userMessage' s' message,
     settled (runOf env' userMessage' s') = Js.Rejected (Js.ErrorInstance message) ->
     fst (sendMessage env' userMessage' s') = Done ("Error: " +:+ message) /\
     Js.startsWith "Error: " ("Error: " +:+ message) = true).
Proof.
  intros Hrej. split; [|split; [reflexivity|]].
  - apply (sendMessage_rejected env userMessage s _ Hrej).
  - intros env' u' s' message Hrej'. split.
    + apply (sendMessage_rejected env' u' s' _ Hrej').
    + apply startsWith_append.
Qed.

Lemma unknown_error_reply_witness :
  settled (runOf unknownFailureEnv "hi" (fresh unknownFailureEnv))
    = Js.Rejected (Js.OtherValue "boom") /\
  fst (sendMessage unknownFailureEnv "hi" (fresh unknownFailureEnv))
    = Done "An unknown error occurred.".
Proof.
  split; [reflexivity|].
  exact (proj1 (unknown_error_reply unknownFailureEnv "hi" (fresh unknownFailureEnv)
                  "boom" eq_refl)).
Defined.

(** ** The reply of a successful turn *)

(** C8: when the generation call succeeds, [sendMessage] returns the text
    of the response, and the sentence [No response generated.] in its place
    when that text is empty. *)
Theorem fallback_when_no_text
  (env : Env) (userMessage : string) (s : Session) (result : GenResult) :
  settled (runOf env userMessage s) = Js.Resolved result ->
  fst (sendMessage env userMessage s) =
    Done match text result with
         | EmptyString => "No response generated."
         | String _ _ => text result
         end /\
  (text result = EmptyString ->
   fst (sendMessage env userMessage s) = Done "No response generated.") /\
  (text result <> EmptyString ->
   fst (sendMessage env userMessage s) = Done (text result)).
Proof.
  intros Hres.
  destruct (sendMessage_resolved env userMessage s result Hres) as [Hreply _].
  rewrite Hreply. unfold Js.orElse.
  destruct (text result); simpl.
  - split; [reflexivity|]. split; [reflexivity | congruence].
  - split; [reflexivity|]. split; [discriminate | reflexivity].
Qed.

Lemma fallback_when_no_text_witness :
  settled (runOf silentEnv "find it" (fresh silentEnv))
    = Js.Resolved {| text := EmptyString; response_messages := [userTurn "find it"] |} /\
  fst (sendMessage silentEnv "find it" (fresh silentEnv)) = Done "No response generated.".
Proof.
  split; [reflexivity|].
  exact (proj1 (fallback_when_no_text silentEnv "find it" (fresh silentEnv) _ eq_refl)).
Defined.

(** ** The notices of the steps *)

Lemma callNotices_quiet (calls : list ToolCall) :
  flat_map (callNotices false) calls =
  map (fun call => ConsoleLog (nl +:+ "[Using tool: " +:+ toolName call +:+ "]")) calls.
Proof.
  induction calls as [|call calls IH]; simpl; [reflexivity|]. now rewrite IH.
Qed.

Lemma resultNotices_quiet (results : list ToolResult) :
  flat_map (resultNotices false) results =
  map (fun _ => ConsoleLog "[Tool failed]") (List.filter flaggedError results).
Proof.
  induction results as [|result results IH]; simpl; [reflexivity|].
  unfold resultNotices at 1. destruct (flaggedError result); simpl; now rewrite IH.
Qed.

(** C7, as the code has it: the callback returns and only writes notices.
    Outside debug mode these are one line naming the tool per proposed
    call and one tool-failure line per result flagged as errored, and
    nothing for the other results; in debug mode each call also gets its
    serialised arguments, each errored result its serialised payload, and
    each other result the success line. *)
Theorem step_notices (step : Step) (s : Session) :
  let r := onStepFinish step s in
  let calls := default [] (toolCalls step) in
  let results := default [] (toolResults step) in
  fst r = Done tt /\
  self (snd r) = self s /\
  trace (snd r) = trace s ++ stepNotices (debugMode (self s)) step /\
  stepNotices false step =
    map (fun call => ConsoleLog (nl +:+ "[Using tool: " +:+ toolName call +:+ "]")) calls
    ++ map (fun _ => ConsoleLog "[Tool failed]") (List.filter flaggedError results) /\
  stepNotices true step =
    flat_map (fun call =>
                [ConsoleLog (nl +:+ "[Using tool: " +:+ toolName call +:+ "]");
                 ConsoleLog ("[Args: " +:+ stringify (args call) +:+ "]")]) calls
    ++ flat_map (fun result =>
                   if flaggedError result
                   then [ConsoleLog "[Tool failed]";
                         ConsoleLog ("[Error: " +:+ stringifyOutput (output result) +:+ "]")]
                   else [ConsoleLog "[Tool completed successfully]"]) results.
Proof.
  cbv zeta. rewrite onStepFinish_run. simpl.
  do 3 (split; [reflexivity|]). split.
  - unfold stepNotices. now rewrite callNotices_quiet, resultNotices_quiet.
  - reflexivity.
Qed.

(** C7, as it is stated, fails outside debug mode: a result that is not
    flagged as errored gets no notice at all. *)
Lemma successful_result_is_silent :
  debugMode (self (fresh echoEnv)) = false /\
  (exists result, toolResults successStep = Some [result] /\
                  flaggedError result = false) /\
  onStepFinish successStep (fresh echoEnv) = (Done tt, fresh echoEnv) /\
  trace (snd (sendMessage silentEnv "find it" (fresh silentEnv))) =
    [GenerateText (requestOf (afterPush "find it" (self (fresh silentEnv))));
     ConsoleLog (nl +:+ "[Using tool: search]")].
Proof.
  split; [reflexivity|]. split.
  - eexists. split; reflexivity.
  - split; reflexivity.
Qed.

(** ** The step budget *)

Lemma stepNotices_callCount (debug : bool) (reported : list Step) :
  callCount (flat_map (stepNotices debug) reported) = 0.
Proof.
  assert (Hc : forall calls, callCount (flat_map (callNotices debug) calls) = 0).
  { induction calls as [|call calls IH]; simpl; [reflexivity|].
    destruct debug; simpl; exact IH. }
  assert (Hr : forall results, callCount (flat_map (resultNotices debug) results) = 0).
  { induction results as [|result results IH]; simpl; [reflexivity|].
    rewrite callCount_app, IH. unfold resultNotices.
    destruct (flaggedError result), debug; reflexivity. }
  induction reported as [|step reported IH]; simpl; [reflexivity|].
  rewrite callCount_app, IH. unfold stepNotices.
  now rewrite callCount_app, Hc, Hr.
Qed.

Lemma rounds_bound (llm : list CoreMessage -> Engine.Proposal)
  (invoke : ToolCall -> ToolResult) (budget : nat) :
  forall history, length (Engine.rounds llm invoke budget history).1.1 <= budget.
Proof.
  induction budget as [|budget IH]; intros history; simpl; [lia|].
  destruct (Engine.proposed (llm history)) as [|call calls]; simpl; [lia|].
  specialize (IH (history ++ map Engine.callMessage (call :: calls)
                          ++ map Engine.resultMessage (map invoke (call :: calls)))).
  simpl in IH.
  destruct (Engine.rounds llm invoke budget _) as [[later txt] transcript].
  simpl in *. lia.
Qed.

Lemma rounds_insistent (budget : nat) :
  forall history, length (Engine.rounds insistent okResult budget history).1.1 = budget.
Proof.
  induction budget as [|budget IH]; intros history; simpl; [reflexivity|].
  specialize (IH (history ++
    [Engine.callMessage {| toolName := "search"; args := {| stringify := "{}" |} |};
     Engine.resultMessage
       (okResult {| toolName := "search"; args := {| stringify := "{}" |} |})])).
  destruct (Engine.rounds insistent okResult budget _) as [[later txt] transcript].
  simpl in *. now rewrite IH.
Qed.

Lemma engine_steps (llm : list CoreMessage -> Engine.Proposal)
  (invoke : ToolCall -> ToolResult) (req : GenRequest) :
  steps (Engine.generateText llm invoke req) =
  (Engine.rounds llm invoke (req_stopWhen req) (req_messages req)).1.1.
Proof.
  unfold Engine.generateText.
  destruct (Engine.rounds llm invoke _ _) as [[reported txt] transcript]. reflexivity.
Qed.

(** C6: the request [sendMessage] issues, the only one of the turn, carries
    the step budget 10; and a generation call that follows the step loop of
    the specification performs at most 10 rounds on it and returns: a
    model that proposes a tool call at every round is stopped after the
    tenth. *)
Theorem step_budget_is_ten (env : Env) (userMessage : string) (s : Session) :
  let request := requestOf (afterPush userMessage (self s)) in
  req_stopWhen request = 10 /\
  (exists notices,
     trace (snd (sendMessage env userMessage s)) = trace s ++ GenerateText request :: notices /\
     callCount notices = 0) /\
  (forall llm invoke,
     length (steps (Engine.generateText llm invoke request)) <= 10 /\
     exists result, settled (Engine.generateText llm invoke request) = Js.Resolved result) /\
  length (steps (Engine.generateText insistent okResult request)) = 10.
Proof.
  cbv zeta. split; [reflexivity|]. split; [|split].
  - eexists. split.
    + apply sendMessage_frame.
    + apply stepNotices_callCount.
  - intros llm invoke. split.
    + rewrite engine_steps. apply (rounds_bound llm invoke MAX_STEPS).
    + unfold Engine.generateText.
      destruct (Engine.rounds llm invoke _ _) as [[reported txt] transcript].
      eexists. reflexivity.
  - rewrite engine_steps. apply (rounds_insistent MAX_STEPS).
Qed.

(** The session end to end on the step loop of the specification: the
    gateway refuses the connection, the model proposes a tool call at every
    round, and the turn still ends, after ten notices, with the fallback
    sentence; then [quit] leaves the loop. *)
Example insistent_session :
  let env := sampleEnv refused (Engine.generateText insistent okResult) in
  fst (chat env ["hi"; "quit"; "ignored"]) = Done tt /\
  callCount (trace (snd (chat env ["hi"; "quit"; "ignored"]))) = 1 /\
  length (List.filter isToolNotice (trace (snd (chat env ["hi"; "quit"; "ignored"]))))
    = 10 /\
  loggedText "Assistant: No response generated."
    (trace (snd (chat env ["hi"; "quit"; "ignored"]))) = true /\
  last (trace (snd (chat env ["hi"; "quit"; "ignored"]))) = Some RlClose.
Proof. vm_compute. repeat split. Qed.

(** The scenario of one plain turn: no tools, one request with the empty
    mapping, the reply printed, and the history equal to the transcript. *)
Example hello_session :
  fst (chat echoEnv ["hello"]) = Pending /\
  callCount (trace (snd (chat echoEnv ["hello"]))) = 1 /\
  conversationHistory (self (snd (chat echoEnv ["hello"]))) =
    [userTurn "hello"; answerTurn "hello"] /\
  mcpTools (self (snd (chat echoEnv ["hello"]))) = ∅ /\
  loggedText "Assistant: hello" (trace (snd (chat echoEnv ["hello"]))) = true /\
  last (trace (snd (chat echoEnv ["hello"]))) = Some (Question "You: ").
Proof. vm_compute. repeat split. Qed.

(** * Further properties of the code *)

(** ** The line read from the terminal *)

Lemma trimEnd_cons (c : ascii) (s : string) :
  Js.trimEnd (String c s) =
  match Js.trimEnd s with
  | EmptyString => if Js.isWhiteSpace c then EmptyString else String c EmptyString
  | String d t => String c (String d t)
  end.
Proof. simpl. destruct (Js.trimEnd s); reflexivity. Qed.

Lemma trimEnd_idempotent (s : string) : Js.trimEnd (Js.trimEnd s) = Js.trimEnd s.
Proof.
  induction s as [|c s IH]; [reflexivity|].
  rewrite (trimEnd_cons c s).
  destruct (Js.trimEnd s) as [|d t] eqn:E.
  - destruct (Js.isWhiteSpace c) eqn:Ec; [reflexivity|].
    rewrite trimEnd_cons. simpl. now rewrite Ec.
  - rewrite trimEnd_cons, IH. reflexivity.
Qed.

Lemma trimEnd_head (c : ascii) (s : string) :
  Js.isWhiteSpace c = false -> exists t, Js.trimEnd (String c s) = String c t.
Proof.
  intros Hc. simpl. destruct (Js.trimEnd s) as [|d t].
  - rewrite Hc. now exists EmptyString.
  - now exists (String d t).
Qed.

Lemma trimEnd_last (s : string) :
  match lastChar (Js.trimEnd s) with
  | Some c => Js.isWhiteSpace c = false
  | None => Js.trimEnd s = EmptyString
  end.
Proof.
  induction s as [|c s IH]; simpl; [reflexivity|].
  destruct (Js.trimEnd s) as [|d t] eqn:E.
  - destruct (Js.isWhiteSpace c) eqn:Ec; simpl; [reflexivity | exact Ec].
  - change (lastChar (String c (String d t))) with (lastChar (String d t)).
    destruct (lastChar (String d t)); [exact IH | discriminate].
Qed.

Lemma trim_idempotent (s : string) : Js.trim (Js.trim s) = Js.trim s.
Proof.
  unfold Js.trim. pose proof (trimStart_head s) as Hh.
  destruct (Js.trimStart s) as [|c t]; [reflexivity|].
  destruct (trimEnd_head c t Hh) as [t' Ht']. rewrite Ht'.
  cbn [Js.trimStart]. rewrite Hh, <- Ht'. apply trimEnd_idempotent.
Qed.

Lemma trim_head (s : string) :
  match Js.trim s with
  | EmptyString => True
  | String c _ => Js.isWhiteSpace c = false
  end.
Proof.
  unfold Js.trim. pose proof (trimStart_head s) as Hh.
  destruct (Js.trimStart s) as [|c t]; [exact I|].
  destruct (trimEnd_head c t Hh) as [t' Ht']. rewrite Ht'. exact Hh.
Qed.

(** X1: what [getUserInput] resolves to is trimmed: it neither starts nor
    ends with white space, and trimming it again changes nothing; and it is
    the empty string exactly when the line typed is empty or made of white
    space only. *)
Theorem user_input_is_trimmed
  (env : Env) (prompt line : string) (rest : list string) (s : Session)
  (userInput : string) :
  fst (getUserInput env prompt (line :: rest) s) = Done userInput ->
  Js.trim userInput = userInput /\
  (userInput = EmptyString <-> Js.allWhiteSpace line = true) /\
  match userInput with
  | EmptyString => Js.allWhiteSpace line = true
  | String c _ =>
      Js.isWhiteSpace c = false /\
      exists d, lastChar userInput = Some d /\ Js.isWhiteSpace d = false
  end.
Proof.
  rewrite getUserInput_run. simpl. intros [= <-].
  split; [apply trim_idempotent|].
  split; [apply trim_empty_iff|].
  pose proof (trim_head line) as Hh.
  pose proof (trimEnd_last (Js.trimStart line)) as Hl. fold (Js.trim line) in Hl.
  destruct (Js.trim line) as [|c t] eqn:E.
  - now apply trim_empty_iff.
  - split; [exact Hh|].
    destruct (lastChar (String c t)) as [d|]; [now exists d | discriminate].
Qed.

Lemma user_input_is_trimmed_witness :
  fst (getUserInput echoEnv "You: " ["  hi there  "] (fresh echoEnv)) = Done "hi there" /\
  Js.trim "hi there" = "hi there" /\
  ("hi there" = EmptyString <-> Js.allWhiteSpace "  hi there  " = true).
Proof.
  split; [reflexivity|].
  destruct (user_input_is_trimmed echoEnv "You: " "  hi there  " [] (fresh echoEnv)
              "hi there" eq_refl) as (Ht & Hiff & _).
  split; [exact Ht | exact Hiff].
Defined.

Lemma trimStart_append (s pad : string) :
  Js.trimStart (s +:+ pad) =
  if Js.allWhiteSpace s then Js.trimStart pad else Js.trimStart s +:+ pad.
Proof.
  induction s as [|c s IH]; simpl; [reflexivity|].
  destruct (Js.isWhiteSpace c); simpl; [exact IH | reflexivity].
Qed.

Lemma trimEnd_allWhiteSpace (s : string) :
  Js.allWhiteSpace s = true -> Js.trimEnd s = EmptyString.
Proof.
  induction s as [|c s IH]; [reflexivity|]. simpl.
  destruct (Js.isWhiteSpace c); simpl; [|discriminate].
  intros H. now rewrite (IH H).
Qed.

Lemma trimEnd_append (s pad : string) :
  Js.allWhiteSpace pad = true -> Js.trimEnd (s +:+ pad) = Js.trimEnd s.
Proof.
  intros Hp. induction s as [|c s IH].
  - simpl. now apply trimEnd_allWhiteSpace.
  - change (String c s +:+ pad) with (String c (s +:+ pad)).
    now rewrite !trimEnd_cons, IH.
Qed.

(** White space around a line does not count. *)
Lemma trim_padding (before s after : string) :
  Js.allWhiteSpace before = true ->
  Js.allWhiteSpace after = true ->
  Js.trim (before +:+ s +:+ after) = Js.trim s.
Proof.
  intros Hb Ha. unfold Js.trim.
  rewrite trimStart_append, Hb, trimStart_append.
  destruct (Js.allWhiteSpace s) eqn:Es.
  - rewrite (trimStart_allWhiteSpace after Ha), (trimStart_allWhiteSpace s Es).
    reflexivity.
  - now apply trimEnd_append.
Qed.

(** X2: a keyword with white space around it shuts the session down like
    the bare keyword: the line is compared after trimming. *)
Theorem padded_keyword_shuts_down
  (env : Env) (before keyword after : string) (rest : list string) (s : Session) :
  Js.allWhiteSpace before = true ->
  Js.allWhiteSpace after = true ->
  Js.toLowerCase keyword = "exit" \/ Js.toLowerCase keyword = "quit" ->
  let r := iteration env ((before +:+ keyword +:+ after) :: rest) s in
  r = iteration env (keyword :: rest) s /\
  fst r = shutdownCompletion (self s) /\
  trace (snd r) = trace s ++ Question "You: " :: shutdownEvents (self s) /\
  rlOpen (self (snd r)) = false.
Proof.
  intros Hb Ha Hkey r. subst r.
  pose proof (exitCommand_keyword keyword Hkey) as Hx.
  assert (Hx' : exitCommand (Js.trim (before +:+ keyword +:+ after)) = true)
    by now rewrite trim_padding.
  rewrite (iteration_exit env _ rest s Hx'), (iteration_exit env _ rest s Hx).
  repeat split.
Qed.

Lemma padded_keyword_shuts_down_witness :
  Js.allWhiteSpace "  " = true /\
  Js.allWhiteSpace " " = true /\
  (Js.toLowerCase "Exit" = "exit" \/ Js.toLowerCase "Exit" = "quit") /\
  trace (snd (iteration echoEnv ["  Exit "; "more"] (fresh echoEnv))) =
    [Question "You: "; ConsoleLog (nl +:+ "Goodbye!"); RlClose].
Proof.
  assert (Hb : Js.allWhiteSpace "  " = true) by reflexivity.
  assert (Ha : Js.allWhiteSpace " " = true) by reflexivity.
  assert (Hk : Js.toLowerCase "Exit" = "exit" \/ Js.toLowerCase "Exit" = "quit")
    by (left; reflexivity).
  split; [exact Hb|]. split; [exact Ha|]. split; [exact Hk|].
  exact (proj1 (proj2 (proj2
    (padded_keyword_shuts_down echoEnv "  " "Exit" " " ["more"] (fresh echoEnv)
       Hb Ha Hk)))).
Defined.

(** ** The loop as a whole *)

Lemma requests_app (a b : list Event) : requests (a ++ b) = requests a ++ requests b.
Proof.
  induction a as [|e a IH]; simpl; [reflexivity|].
  destruct e; simpl; now rewrite IH.
Qed.

Lemma callCount_requests (tr : list Event) : callCount tr = length (requests tr).
Proof.
  induction tr as [|e tr IH]; simpl; [reflexivity|].
  destruct e; simpl; now rewrite IH.
Qed.

Lemma stepNotices_requests (debug : bool) (reported : list Step) :
  requests (flat_map (stepNotices debug) reported) = [].
Proof.
  apply length_zero_iff_nil. rewrite <- callCount_requests.
  apply stepNotices_callCount.
Qed.

Lemma iteration_eof (env : Env) (s : Session) :
  iteration env [] s =
  if inputEnded env
  then (Uncaught ERR_USE_AFTER_CLOSE,
        {| self := setRlOpen false (self s); trace := trace s |})
  else (Pending, logged s [Question "You: "]).
Proof.
  unfold iteration, bind at 1. rewrite getUserInput_eof.
  destruct (inputEnded env); reflexivity.
Qed.

Lemma mainLoop_eof (env : Env) (s : Session) :
  mainLoop env [] s =
  if inputEnded env
  then (Uncaught ERR_USE_AFTER_CLOSE,
        {| self := setRlOpen false (self s); trace := trace s |})
  else (Pending, logged s [Question "You: "]).
Proof.
  cbn [mainLoop]. unfold bind at 1. rewrite iteration_eof.
  destruct (inputEnded env); reflexivity.
Qed.

Lemma iteration_head (env : Env) (line : string) (rest rest' : list string) (s : Session) :
  iteration env (line :: rest) s = iteration env (line :: rest') s.
Proof. reflexivity. Qed.

Lemma sameConfig_refl (c : ChatCLI) : sameConfig c c.
Proof. repeat split. Qed.

Lemma sameConfig_trans (a b c : ChatCLI) :
  sameConfig a b -> sameConfig b c -> sameConfig a c.
Proof.
  intros (H1 & H2 & H3 & H4) (H5 & H6 & H7 & H8).
  repeat split; congruence.
Qed.

Lemma loopRequest_config (c c' : ChatCLI) (req : GenRequest) :
  sameConfig c c' -> loopRequest c' req -> loopRequest c req.
Proof.
  intros (Hk & _ & _ & Ht) (H1 & H2 & H3 & H4 & H5 & H6).
  repeat split; try assumption; congruence.
Qed.

(** A pass that does not shut down: the loop goes on; the configuration
    and the terminal are as they were; nothing is closed; and the pass
    issues one request, for the trimmed line, unless the line is blank. *)
Lemma iteration_continue (env : Env) (line : string) (rest : list string) (s : Session) :
  exitCommand (Js.trim line) = false ->
  exists s' evs,
    iteration env (line :: rest) s = (Done Continue, s') /\
    sameConfig (self s) (self s') /\
    rlOpen (self s') = rlOpen (self s) /\
    trace s' = trace s ++ evs /\
    forallb (fun e => negb (closing e)) evs = true /\
    requests evs =
      (if Js.truthy (Js.trim line)
       then [requestOf (afterPush (Js.trim line) (self s))]
       else []).
Proof.
  intros Hx.
  destruct (decide (Js.trim line = EmptyString)) as [Hb | Hb].
  - rewrite (iteration_blank env line rest s Hb), Hb.
    exists (logged s [Question "You: "]), [Question "You: "].
    split; [reflexivity|]. split; [apply sameConfig_refl|]. repeat split.
  - rewrite (iteration_send env line rest s Hx Hb). cbv zeta.
    destruct (sendMessage_frame env (Js.trim line) (logged s [Question "You: "]))
      as ((answer & Ha) & Hk & Hrl & Hcl & Htl & Hdb & Htr).
    destruct (sendMessage env (Js.trim line) (logged s [Question "You: "]))
      as [c s1].
    simpl in Ha, Hk, Hrl, Hcl, Htl, Hdb, Htr. subst c.
    eexists. eexists. split; [reflexivity|].
    split; [repeat split; assumption|].
    split; [exact Hrl|]. split.
    + simpl. rewrite Htr, <- !app_assoc. reflexivity.
    + split.
      * simpl. rewrite forallb_app, stepNotices_not_closing. reflexivity.
      * simpl. rewrite requests_app, stepNotices_requests. simpl.
        destruct (Js.trim line); [congruence | reflexivity].
Qed.

Lemma shutdownEvents_requests (c : ChatCLI) : requests (shutdownEvents c) = [].
Proof. unfold shutdownEvents. destruct (mcpClient c); reflexivity. Qed.

Lemma loopRequest_line (c : ChatCLI) (line : string) :
  exitCommand (Js.trim line) = false ->
  Js.trim line <> EmptyString ->
  loopRequest c (requestOf (afterPush (Js.trim line) c)).
Proof.
  intros Hx Hb. do 5 (split; [reflexivity|]).
  exists (conversationHistory c), (Js.trim line).
  split; [reflexivity|]. split; [exact Hb|].
  split; [apply trim_idempotent | exact Hx].
Qed.

Lemma mainLoop_exit (env : Env) (line : string) (rest : list string) (s : Session) :
  exitCommand (Js.trim line) = true ->
  mainLoop env (line :: rest) s =
  (leaveLoop (shutdownCompletion (self s)),
   {| self := setRlOpen false (self s);
      trace := trace s ++ Question "You: " :: shutdownEvents (self s) |}).
Proof.
  intros Hx. rewrite mainLoop_unfold, (iteration_exit env line rest s Hx).
  unfold shutdownCompletion. destruct (mcpClient (self s)) as [client|];
    [destruct (client_close client)|]; reflexivity.
Qed.

(** What the loop does on the lines typed, from any session. *)
Lemma mainLoop_facts (env : Env) (stdin : list string) :
  forall s, exists evs,
    let r := mainLoop env stdin s in
    trace (snd r) = trace s ++ evs /\
    sameConfig (self s) (self (snd r)) /\
    Forall (loopRequest (self s)) (requests evs) /\
    length (requests evs) = turnsTyped stdin /\
    map lastMessage (requests evs) = map (fun u => Some (userTurn u)) (sentLines stdin) /\
    if hasExit stdin
    then rlOpen (self (snd r)) = false /\
         (fst r = Done tt \/
          exists client t,
            mcpClient (self s) = Some client /\
            client_close client = Js.Rejected t /\
            fst r = Uncaught t)
    else forallb (fun e => negb (closing e)) evs = true /\
         if inputEnded env
         then fst r = Uncaught ERR_USE_AFTER_CLOSE /\
              rlOpen (self (snd r)) = false
         else fst r = Pending /\
              rlOpen (self (snd r)) = rlOpen (self s).
Proof.
  induction stdin as [|line rest IH]; intros s.
  - cbv zeta. rewrite mainLoop_eof. simpl hasExit.
    destruct (inputEnded env).
    + exists []. cbn [fst snd self trace requests]. rewrite app_nil_r.
      split; [reflexivity|]. split; [repeat split|].
      split; [constructor|]. repeat split.
    + exists [Question "You: "]. cbn [fst snd self trace logged requests].
      split; [reflexivity|]. split; [apply sameConfig_refl|].
      split; [constructor|]. repeat split.
  - cbv zeta. simpl hasExit. simpl turnsTyped. simpl sentLines.
    destruct (exitCommand (Js.trim line)) eqn:Hx.
    + rewrite (mainLoop_exit env line rest s Hx).
      exists (Question "You: " :: shutdownEvents (self s)).
      cbn [fst snd self trace requests].
      split; [reflexivity|]. split; [repeat split|].
      rewrite shutdownEvents_requests.
      split; [constructor|]. split; [reflexivity|]. split; [reflexivity|].
      split; [reflexivity|].
      unfold shutdownCompletion.
      destruct (mcpClient (self s)) as [client|]; [|now left].
      destruct (client_close client) as [u|t] eqn:Ec; [now left|].
      right. exists client, t. repeat split. exact Ec.
    + destruct (iteration_continue env line rest s Hx)
        as (s' & evs & Hit & Hcfg & Hrl & Htr & Hcl & Hreq).
      rewrite mainLoop_unfold, Hit.
      destruct (IH s') as (evs' & Htr' & Hcfg' & Hall & Hlen & Hsent & Hend).
      cbv zeta in Htr', Hcfg', Hend.
      exists (evs ++ evs').
      split; [rewrite Htr', Htr, app_assoc; reflexivity|].
      split; [exact (sameConfig_trans _ _ _ Hcfg Hcfg')|].
      rewrite requests_app, Hreq, length_app, Hlen, !map_app, Hsent.
      split.
      { apply Forall_app. split.
        - destruct (Js.truthy (Js.trim line)) eqn:Et; constructor; [|constructor].
          apply loopRequest_line; [exact Hx|].
          intros Hb. rewrite Hb in Et. discriminate.
        - eapply Forall_impl; [exact Hall|].
          intros req. apply loopRequest_config, Hcfg. }
      split.
      { destruct (Js.truthy (Js.trim line)); reflexivity. }
      split.
      { destruct (Js.truthy (Js.trim line)); [|reflexivity].
        cbn [map app]. unfold lastMessage at 1. cbn [req_messages requestOf afterPush
          setConversationHistory conversationHistory].
        now rewrite last_snoc. }
      destruct (hasExit rest).
      * destruct Hend as [Hclosed Hdone]. split; [exact Hclosed|].
        destruct Hdone as [Hd | (client & t & Hc & Hr & Hu)]; [now left|].
        right. exists client, t. split; [|split; assumption].
        destruct Hcfg as (_ & _ & Hmc & _). congruence.
      * destruct Hend as (Hcl' & Hend).
        split; [now rewrite forallb_app, Hcl, Hcl'|].
        destruct (inputEnded env).
        -- exact Hend.
        -- destruct Hend as [Hp Hrl']. split; [exact Hp | congruence].
Qed.

(** ** The initialization of the tool gateway, on every path *)

Lemma initializeMCP_run (env : Env) (s : Session) :
  initializeMCP env s =
  (Done tt,
   {| self :=
        match createdClient env with
        | Some client =>
            match client_tools client with
            | Js.Resolved tools => setMcpTools tools (setMcpClient (Some client) (self s))
            | Js.Rejected _ => setMcpClient (Some client) (self s)
            end
        | None => self s
        end;
      trace := trace s ++ initEvents env |}).
Proof.
  unfold initializeMCP, initializeMCP_catch, createdClient, initEvents, transportFor,
    catchEvents, bind, consoleLog, emit, assign, this, ret.
  cbv zeta.
  destruct (new_URL env (MCP_SERVER_URL env)) as [url | e].
  - destruct (createMCPClient env _) as [client | e].
    + destruct (client_tools client) as [tools | e].
      * cbn [fst snd self trace]. rewrite <- !app_assoc. reflexivity.
      * destruct e; cbn [fst snd self trace]; rewrite <- !app_assoc; reflexivity.
    + destruct e; cbn [fst snd self trace]; rewrite <- !app_assoc; reflexivity.
  - destruct e; cbn [fst snd self trace]; rewrite <- !app_assoc; reflexivity.
Qed.

Lemma start_run (env : Env) (stdin : list string) (s : Session) :
  start env stdin s =
  let s1 := logged s [ConsoleLog "=== Nexus CLI - AI Chat ===";
                      ConsoleLog ("Powered by Vercel AI SDK v5" +:+ nl)] in
  if Js.truthy (apiKey (self s)) then
    mainLoop env stdin
      (loopEntry env (logged s1 [ConsoleLog ("Using API key from .env file" +:+ nl)]))
  else
    match stdin with
    | [] => (Pending, logged s1 [Question "Enter your OpenAI API key: "])
    | key :: rest =>
        mainLoop env rest
          (loopEntry env
             {| self := setApiKey (Js.trim key) (self s);
                trace := trace s1 ++ [Question "Enter your OpenAI API key: ";
                                      ConsoleLog ("API key saved for this session." +:+ nl)] |})
    end.
Proof.
  unfold start, loopEntry, promptForApiKey, question.
  unfold bind, consoleLog, emit, this, assign, never, ret, logged.
  cbn [fst snd self trace]. cbv zeta.
  destruct (Js.truthy (apiKey (self s))); cbn [negb].
  - rewrite !initializeMCP_run. cbn [fst snd self trace].
    rewrite <- !app_assoc. reflexivity.
  - destruct stdin as [|key rest]; cbn [tail].
    + cbn [fst snd self trace]. rewrite <- !app_assoc. reflexivity.
    + rewrite !initializeMCP_run. cbn [fst snd self trace].
      rewrite <- !app_assoc. reflexivity.
Qed.

(** X3: the loop issues one generation call for each line typed before the
    first [exit] or [quit] that is not blank, and no other. *)
Theorem one_request_per_turn (env : Env) (stdin : list string) (s : Session) :
  callCount (trace (snd (mainLoop env stdin s))) = callCount (trace s) + turnsTyped stdin.
Proof.
  destruct (mainLoop_facts env stdin s) as (evs & Htr & _ & _ & Hlen & _).
  cbv zeta in Htr. rewrite Htr, callCount_app, (callCount_requests evs), Hlen.
  reflexivity.
Qed.

(** X4: the lines typed after [exit] or [quit] are never read: whatever
    follows the keyword, the loop does the same. *)
Theorem lines_after_exit_are_ignored
  (env : Env) (before : list string) (keyword : string) (rest rest' : list string)
  (s : Session) :
  exitCommand (Js.trim keyword) = true ->
  mainLoop env (before ++ keyword :: rest) s = mainLoop env (before ++ keyword :: rest') s.
Proof.
  intros Hx. revert s. induction before as [|line before IH]; intros s.
  - simpl app. now rewrite !(mainLoop_exit env keyword _ s Hx).
  - simpl app. rewrite !mainLoop_unfold.
    rewrite (iteration_head env line _ (before ++ keyword :: rest') s).
    destruct (iteration env (line :: before ++ keyword :: rest') s) as [[[|]| |t] s'];
      try reflexivity.
    apply IH.
Qed.

Lemma lines_after_exit_are_ignored_witness :
  exitCommand (Js.trim " QUIT") = true /\
  mainLoop echoEnv (["hi"] ++ " QUIT" :: ["more"; "exit"]) (fresh echoEnv) =
  mainLoop echoEnv (["hi"] ++ " QUIT" :: []) (fresh echoEnv).
Proof.
  assert (Hx : exitCommand (Js.trim " QUIT") = true) by reflexivity.
  split; [exact Hx|].
  exact (lines_after_exit_are_ignored echoEnv ["hi"] " QUIT" ["more"; "exit"] []
           (fresh echoEnv) Hx).
Defined.

(** X5: the loop is left on a line [exit] or [quit], and then the program
    has closed the terminal interface; with no such line it goes to the end
    of the lines typed and closes nothing itself: there, if the input has
    ended and readline has closed, the question throws
    [ERR_USE_AFTER_CLOSE] out of the loop, and otherwise the loop waits for
    a line with the terminal as it was. *)
Theorem loop_ends_on_keyword_or_end_of_input
  (env : Env) (stdin : list string) (s : Session) :
  let r := mainLoop env stdin s in
  if hasExit stdin
  then fst r <> Pending /\ rlOpen (self (snd r)) = false
  else (exists evs, trace (snd r) = trace s ++ evs /\
                    forallb (fun e => negb (closing e)) evs = true) /\
       if inputEnded env
       then fst r = Uncaught ERR_USE_AFTER_CLOSE /\ rlOpen (self (snd r)) = false
       else fst r = Pending /\ rlOpen (self (snd r)) = rlOpen (self s).
Proof.
  destruct (mainLoop_facts env stdin s) as (evs & Htr & _ & _ & _ & _ & Hend).
  cbv zeta in *. destruct (hasExit stdin).
  - destruct Hend as [Hclosed [Hd | (client & t & _ & _ & Hu)]];
      (split; [congruence | exact Hclosed]).
  - destruct Hend as (Hcl & Hend). split; [now exists evs | exact Hend].
Qed.

(** X6: two errors can escape the loop and no other: the rejection of the
    client's [close] at shutdown, after the terminal interface is closed,
    and the [ERR_USE_AFTER_CLOSE] of the question asked once the input has
    ended; a failure of the generation call never escapes. *)
Theorem escaping_errors
  (env : Env) (stdin : list string) (s : Session) (t : Js.Thrown) :
  fst (mainLoop env stdin s) = Uncaught t ->
  (hasExit stdin = true /\
   rlOpen (self (snd (mainLoop env stdin s))) = false /\
   exists client,
     mcpClient (self s) = Some client /\ client_close client = Js.Rejected t) \/
  (hasExit stdin = false /\
   inputEnded env = true /\
   t = ERR_USE_AFTER_CLOSE).
Proof.
  intros Hu.
  destruct (mainLoop_facts env stdin s) as (evs & _ & _ & _ & _ & _ & Hend).
  cbv zeta in Hend. destruct (hasExit stdin).
  - left.
    destruct Hend as [Hclosed [Hd | (client & t' & Hc & Hr & Hu')]]; [congruence|].
    split; [reflexivity|]. split; [exact Hclosed|].
    exists client. split; [exact Hc|]. congruence.
  - right. destruct Hend as (_ & Hend). destruct (inputEnded env).
    + destruct Hend as [Hu' _]. repeat split. congruence.
    + destruct Hend as [Hp _]. congruence.
Qed.

Lemma escaping_errors_witness :
  let env := sampleEnv (Js.Resolved stuckClient) (failingRun (Js.OtherValue "boom")) in
  let s := {| self := setMcpClient (Some stuckClient) (construct env); trace := [] |} in
  fst (mainLoop env ["hi"; "exit"] s) = Uncaught (Js.ErrorInstance "socket hang up") /\
  hasExit ["hi"; "exit"] = true /\
  fst (mainLoop endedEnv ["hi"] (fresh endedEnv)) = Uncaught ERR_USE_AFTER_CLOSE /\
  inputEnded endedEnv = true.
Proof.
  intros env s.
  assert (Hu : fst (mainLoop env ["hi"; "exit"] s)
               = Uncaught (Js.ErrorInstance "socket hang up")) by reflexivity.
  assert (Hv : fst (mainLoop endedEnv ["hi"] (fresh endedEnv))
               = Uncaught ERR_USE_AFTER_CLOSE) by reflexivity.
  split; [exact Hu|]. split.
  - destruct (escaping_errors env ["hi"; "exit"] s _ Hu) as [(Hx & _) | (Hx & _)];
      [exact Hx | discriminate Hx].
  - split; [exact Hv|].
    destruct (escaping_errors endedEnv ["hi"] (fresh endedEnv) _ Hv)
      as [(Hx & _) | (_ & He & _)]; [discriminate Hx | exact He].
Defined.

(** X7: the loop never changes the configuration of the session: the API
    key, the debug flag, the client handle and the tool mapping are at the
    end what they were at the start, whatever is typed and whatever the
    generation calls do. *)
Theorem loop_keeps_configuration (env : Env) (stdin : list string) (s : Session) :
  apiKey (self (snd (mainLoop env stdin s))) = apiKey (self s) /\
  debugMode (self (snd (mainLoop env stdin s))) = debugMode (self s) /\
  mcpClient (self (snd (mainLoop env stdin s))) = mcpClient (self s) /\
  mcpTools (self (snd (mainLoop env stdin s))) = mcpTools (self s).
Proof.
  destruct (mainLoop_facts env stdin s) as (evs & _ & Hcfg & _).
  exact Hcfg.
Qed.

(** X8: every request the loop issues carries the model [gpt-4o-mini], the
    system prompt, the API key and the tool mapping of the session and the
    step budget 10; and the last messages of the requests, in order, are
    the user messages holding the trimmed lines typed before the first
    [exit] or [quit] that are not empty, one request per such line. *)
Theorem loop_requests_are_uniform (env : Env) (stdin : list string) (s : Session) :
  exists evs,
    trace (snd (mainLoop env stdin s)) = trace s ++ evs /\
    Forall (loopRequest (self s)) (requests evs) /\
    map lastMessage (requests evs) = map (fun u => Some (userTurn u)) (sentLines stdin).
Proof.
  destruct (mainLoop_facts env stdin s) as (evs & Htr & _ & Hall & _ & Hsent & _).
  now exists evs.
Qed.

(** ** The tool gateway, beyond its failures *)

Lemma catchEvents_logs (error : Js.Thrown) (e : Event) :
  In e (catchEvents error) -> exists line, e = ConsoleLog line.
Proof.
  unfold catchEvents. destruct error; simpl; intros H;
    repeat (destruct H as [<- | H]; [eexists; reflexivity|]); contradiction.
Qed.

(** X9: the transport is created for the URL of [NEXUS_MCP_URL], or for
    the default endpoint when that variable is unset or empty; and it
    carries the header [Bearer <token>] exactly when [CIVIC_ACCESS_TOKEN]
    is set and not empty. *)
Theorem transport_url_and_bearer (env : Env) (s : Session) (tr : Transport) :
  ~ In (CreateMCPClient tr) (trace s) ->
  In (CreateMCPClient tr) (trace (snd (initializeMCP env s))) ->
  new_URL env
    match NEXUS_MCP_URL env with
    | Some (String c u) => String c u
    | _ => "https://nexus.civic.com/hub/mcp"
    end = Js.Resolved (transport_url tr) /\
  authorization tr =
    match CIVIC_ACCESS_TOKEN env with
    | Some (String c tok) => Some ("Bearer " +:+ String c tok)
    | _ => None
    end.
Proof.
  intros Hold Hin. rewrite initializeMCP_run in Hin. cbn [snd trace] in Hin.
  apply in_app_or in Hin as [Hin | Hin]; [contradiction|].
  unfold initEvents in Hin.
  assert (Hurl : MCP_SERVER_URL env =
                 match NEXUS_MCP_URL env with
                 | Some (String c u) => String c u
                 | _ => "https://nexus.civic.com/hub/mcp"
                 end).
  { unfold MCP_SERVER_URL. destruct (NEXUS_MCP_URL env) as [[|c u]|]; reflexivity. }
  rewrite <- Hurl.
  destruct Hin as [Hin | Hin]; [discriminate|].
  destruct (new_URL env (MCP_SERVER_URL env)) as [url | e].
  - destruct Hin as [Hin | Hin].
    + injection Hin as <-. split; [reflexivity|].
      unfold transportFor. simpl.
      destruct (CIVIC_ACCESS_TOKEN env) as [[|c tok]|]; reflexivity.
    + exfalso.
      destruct (createMCPClient env (transportFor env url)) as [client | e].
      * destruct Hin as [Hin | Hin]; [discriminate|].
        destruct (client_tools client) as [tools | e].
        -- destruct Hin as [Hin | []]. discriminate.
        -- apply catchEvents_logs in Hin as [line Hl]. discriminate.
      * apply catchEvents_logs in Hin as [line Hl]. discriminate.
  - exfalso. apply catchEvents_logs in Hin as [line Hl]. discriminate.
Qed.

Lemma transport_url_and_bearer_witness :
  let tr := {| transport_url := "https://nexus.civic.com/hub/mcp";
               authorization := Some "Bearer tok" |} in
  ~ In (CreateMCPClient tr) (trace (fresh keylessEnv)) /\
  In (CreateMCPClient tr) (trace (snd (initializeMCP keylessEnv (fresh keylessEnv)))) /\
  authorization tr = Some "Bearer tok".
Proof.
  intros tr.
  assert (Hold : ~ In (CreateMCPClient tr) (trace (fresh keylessEnv)))
    by (intros H; exact H).
  assert (Hin : In (CreateMCPClient tr)
                   (trace (snd (initializeMCP keylessEnv (fresh keylessEnv)))))
    by (right; left; reflexivity).
  split; [exact Hold|]. split; [exact Hin|].
  exact (proj2 (transport_url_and_bearer keylessEnv (fresh keylessEnv) tr Hold Hin)).
Defined.

(** X10: the client handle is kept as soon as the client is created, even
    when the listing of its tools then fails and the tool mapping stays as
    it was; so the shutdown closes the transport exactly when the client
    was created. *)
Theorem client_is_closed_once_created
  (env : Env) (s : Session) (line : string) (rest : list string) :
  mcpClient (self s) = None ->
  exitCommand (Js.trim line) = true ->
  let s1 := snd (initializeMCP env s) in
  mcpClient (self s1) = createdClient env /\
  (forall client t,
     createdClient env = Some client ->
     client_tools client = Js.Rejected t ->
     mcpTools (self s1) = mcpTools (self s)) /\
  trace (snd (iteration env (line :: rest) s1)) =
    trace s1 ++ [Question "You: "; ConsoleLog (nl +:+ "Goodbye!"); RlClose]
             ++ match createdClient env with
                | Some _ => [McpClose]
                | None => []
                end.
Proof.
  intros Hnone Hx s1.
  assert (Hc : mcpClient (self s1) = createdClient env).
  { subst s1. rewrite initializeMCP_run. cbn [snd self].
    destruct (createdClient env) as [client|]; [|exact Hnone].
    destruct (client_tools client); reflexivity. }
  split; [exact Hc|]. split.
  - intros client t Hcr Ht. subst s1. rewrite initializeMCP_run. cbn [snd self].
    rewrite Hcr, Ht. reflexivity.
  - rewrite (iteration_exit env line rest s1 Hx). cbn [snd trace].
    unfold shutdownEvents. rewrite Hc. reflexivity.
Qed.

Lemma client_is_closed_once_created_witness :
  let env := sampleEnv (Js.Resolved brokenClient) echoRun in
  mcpClient (self (fresh env)) = None /\
  exitCommand (Js.trim "quit") = true /\
  mcpTools (self (snd (initializeMCP env (fresh env)))) = ∅ /\
  last (trace (snd (iteration env ["quit"] (snd (initializeMCP env (fresh env))))))
    = Some McpClose.
Proof.
  intros env.
  assert (Hn : mcpClient (self (fresh env)) = None) by reflexivity.
  assert (Hx : exitCommand (Js.trim "quit") = true) by reflexivity.
  split; [exact Hn|]. split; [exact Hx|].
  destruct (client_is_closed_once_created env (fresh env) "quit" [] Hn Hx)
    as (_ & Htools & Htr).
  split.
  - exact (Htools brokenClient _ eq_refl eq_refl).
  - rewrite Htr. reflexivity.
Defined.

(** X11: when the initialization succeeds, the last line it writes reports
    the number of tools of the mapping the session then holds. *)
Theorem connected_reports_tool_count (env : Env) (s : Session) :
  initFailure env = None ->
  let s1 := snd (initializeMCP env s) in
  last (trace s1) =
    Some (ConsoleLog ("Connected! Loaded " +:+ Js.numberToString (size (mcpTools (self s1)))
                      +:+ " tools from Civic MCP." +:+ nl)) /\
  forall e, In e (trace s1) -> In e (trace s) \/
    e <> ConsoleLog "Warning: Could not connect to Civic MCP server.".
Proof.
  intros Hf. cbv zeta. unfold initFailure in Hf.
  rewrite initializeMCP_run. cbn [snd self trace].
  unfold createdClient, initEvents, transportFor.
  destruct (new_URL env (MCP_SERVER_URL env)) as [url | e]; [|discriminate].
  destruct (createMCPClient env _) as [client | e]; [|discriminate].
  destruct (client_tools client) as [tools | e]; [|discriminate].
  split.
  - rewrite last_app. reflexivity.
  - intros e Hin. apply in_app_or in Hin as [Hin | Hin]; [now left|]. right.
    destruct Hin as [<- | [<- | [<- | [<- | []]]]]; discriminate.
Qed.

Lemma connected_reports_tool_count_witness :
  let env := sampleEnv (Js.Resolved sampleClient) echoRun in
  initFailure env = None /\
  last (trace (snd (initializeMCP env (fresh env)))) =
    Some (ConsoleLog ("Connected! Loaded 1 tools from Civic MCP." +:+ nl)).
Proof.
  intros env.
  assert (Hf : initFailure env = None) by reflexivity.
  split; [exact Hf|].
  exact (proj1 (connected_reports_tool_count env (fresh env) Hf)).
Defined.

(** ** The program from its start *)

Lemma catchEvents_requests (error : Js.Thrown) : requests (catchEvents error) = [].
Proof. destruct error; reflexivity. Qed.

Lemma initEvents_requests (env : Env) : requests (initEvents env) = [].
Proof.
  unfold initEvents. cbn [requests].
  destruct (new_URL env (MCP_SERVER_URL env)) as [url | e];
    [|apply catchEvents_requests].
  cbn [requests].
  destruct (createMCPClient env (transportFor env url)) as [client | e];
    [|apply catchEvents_requests].
  cbn [requests].
  destruct (client_tools client) as [tools | e];
    [reflexivity | apply catchEvents_requests].
Qed.

Lemma loopEntry_facts (env : Env) (s : Session) :
  apiKey (self (loopEntry env s)) = apiKey (self s) /\
  debugMode (self (loopEntry env s)) = debugMode (self s) /\
  conversationHistory (self (loopEntry env s)) = conversationHistory (self s) /\
  requests (trace (loopEntry env s)) = requests (trace s) /\
  exists evs, trace (loopEntry env s) = trace s ++ evs.
Proof.
  unfold loopEntry. rewrite initializeMCP_run. cbn [snd self trace logged].
  assert (Hself : forall c,
    apiKey match createdClient env with
           | Some client =>
               match client_tools client with
               | Js.Resolved tools => setMcpTools tools (setMcpClient (Some client) c)
               | Js.Rejected _ => setMcpClient (Some client) c
               end
           | None => c
           end = apiKey c /\
    debugMode match createdClient env with
              | Some client =>
                  match client_tools client with
                  | Js.Resolved tools => setMcpTools tools (setMcpClient (Some client) c)
                  | Js.Rejected _ => setMcpClient (Some client) c
                  end
              | None => c
              end = debugMode c /\
    conversationHistory match createdClient env with
              | Some client =>
                  match client_tools client with
                  | Js.Resolved tools => setMcpTools tools (setMcpClient (Some client) c)
                  | Js.Rejected _ => setMcpClient (Some client) c
                  end
              | None => c
              end = conversationHistory c).
  { intros c. destruct (createdClient env) as [client|]; [|repeat split].
    destruct (client_tools client); repeat split. }
  destruct (Hself (self s)) as (H1 & H2 & H3).
  split; [exact H1|]. split; [exact H2|]. split; [exact H3|]. split.
  - rewrite !requests_app, initEvents_requests. cbn [requests].
    now rewrite !app_nil_r.
  - eexists. rewrite <- app_assoc. reflexivity.
Qed.

(** The requests of the program are those of its loop. *)
Lemma entry_requests (env : Env) (s : Session) (lines : list string) :
  requests (trace s) = [] ->
  let r := mainLoop env lines (loopEntry env s) in
  apiKey (self (snd r)) = apiKey (self s) /\
  Forall (fun req => req_apiKey req = apiKey (self s) /\
                     req_tools req = mcpTools (self (snd r)) /\
                     req_stopWhen req = 10)
         (requests (trace (snd r))) /\
  length (requests (trace (snd r))) = turnsTyped lines.
Proof.
  intros Hnone r.
  destruct (loopEntry_facts env s) as (Hk & _ & _ & Hreq & _).
  destruct (mainLoop_facts env lines (loopEntry env s))
    as (evs & Htr & Hcfg & Hall & Hlen & _).
  fold r in Htr, Hcfg. destruct Hcfg as (Hk' & _ & _ & Ht').
  split; [congruence|].
  rewrite Htr, requests_app, Hreq, Hnone. cbn [app].
  split; [|exact Hlen].
  eapply Forall_impl; [exact Hall|].
  intros req (_ & Hrk & _ & Hrt & Hrs & _). repeat split; congruence.
Qed.

Lemma chat_run (env : Env) (stdin : list string) :
  chat env stdin =
  match start env stdin (fresh env) with
  | (Uncaught t, s) => (Done tt, logged s [ConsoleError t])
  | r => r
  end.
Proof. reflexivity. Qed.

Lemma chat_requests (env : Env) (stdin : list string) :
  requests (trace (snd (chat env stdin))) =
  requests (trace (snd (start env stdin (fresh env)))) /\
  apiKey (self (snd (chat env stdin))) = apiKey (self (snd (start env stdin (fresh env)))).
Proof.
  rewrite chat_run.
  destruct (start env stdin (fresh env)) as [[[]| |t] s]; cbn [snd]; split;
    try reflexivity.
  cbn [logged trace]. rewrite requests_app. cbn [requests]. now rewrite app_nil_r.
Qed.

(** X12: without a preconfigured API key the first line typed is taken as
    the key, trimmed, and is not sent to the model: every request of the
    session carries it, and the turns are those of the lines that follow.
    With no line at all the program waits at the prompt, before any
    connection to the tool server. *)
Theorem missing_key_is_prompted (env : Env) :
  Js.truthy (apiKey (construct env)) = false ->
  chat env [] =
    (Pending,
     {| self := construct env;
        trace := [ConsoleLog "=== Nexus CLI - AI Chat ===";
                  ConsoleLog ("Powered by Vercel AI SDK v5" +:+ nl);
                  Question "Enter your OpenAI API key: "] |}) /\
  forall key rest,
    let r := chat env (key :: rest) in
    apiKey (self (snd r)) = Js.trim key /\
    Forall (fun req => req_apiKey req = Js.trim key) (requests (trace (snd r))) /\
    length (requests (trace (snd r))) = turnsTyped rest /\
    exists evs,
      trace (snd r) =
        [ConsoleLog "=== Nexus CLI - AI Chat ===";
         ConsoleLog ("Powered by Vercel AI SDK v5" +:+ nl);
         Question "Enter your OpenAI API key: ";
         ConsoleLog ("API key saved for this session." +:+ nl);
         ConsoleLog "Connecting to Civic MCP server..."] ++ evs.
Proof.
  intros Hkey. split.
  - rewrite chat_run, start_run. cbv zeta.
    change (apiKey (self (fresh env))) with (apiKey (construct env)).
    rewrite Hkey. reflexivity.
  - intros key rest r.
    destruct (chat_requests env (key :: rest)) as [Hreq Hk]. fold r in Hreq, Hk.
    assert (Hstart : start env (key :: rest) (fresh env) =
      mainLoop env rest
        (loopEntry env
           {| self := setApiKey (Js.trim key) (construct env);
              trace := [ConsoleLog "=== Nexus CLI - AI Chat ===";
                        ConsoleLog ("Powered by Vercel AI SDK v5" +:+ nl);
                        Question "Enter your OpenAI API key: ";
                        ConsoleLog ("API key saved for this session." +:+ nl)] |})).
    { rewrite start_run. cbv zeta.
      change (apiKey (self (fresh env))) with (apiKey (construct env)).
      rewrite Hkey. reflexivity. }
    rewrite Hstart in Hreq, Hk.
    match type of Hk with
    | _ = apiKey (self (snd (mainLoop env rest (loopEntry env ?s0)))) =>
        destruct (entry_requests env s0 rest eq_refl) as (Ha & Hall & Hlen);
        destruct (loopEntry_facts env s0) as (_ & _ & _ & _ & evs0 & Hev0);
        destruct (mainLoop_facts env rest (loopEntry env s0)) as (evs1 & Hev1 & _)
    end.
    cbv zeta in Ha, Hall, Hlen, Hev1.
    split; [rewrite Hk; exact Ha|].
    split.
    { rewrite Hreq. eapply Forall_impl; [exact Hall|]. intros req (H & _). exact H. }
    split; [rewrite Hreq; exact Hlen|].
    assert (Hinit : exists evs, trace (snd (start env (key :: rest) (fresh env))) =
       [ConsoleLog "=== Nexus CLI - AI Chat ===";
        ConsoleLog ("Powered by Vercel AI SDK v5" +:+ nl);
        Question "Enter your OpenAI API key: ";
        ConsoleLog ("API key saved for this session." +:+ nl);
        ConsoleLog "Connecting to Civic MCP server..."] ++ evs).
    { rewrite Hstart, Hev1. unfold loopEntry. rewrite initializeMCP_run.
      cbn [snd trace logged]. unfold initEvents.
      eexists. rewrite <- !app_assoc. cbn [app]. reflexivity. }
    destruct Hinit as [evs Hevs].
    subst r. rewrite chat_run.
    destruct (start env (key :: rest) (fresh env)) as [[[]| |t] s1];
      cbn [snd] in *.
    + now exists evs.
    + now exists evs.
    + exists (evs ++ [ConsoleError t]). cbn [logged trace]. rewrite Hevs.
      now rewrite <- app_assoc.
Qed.

Lemma missing_key_is_prompted_witness :
  Js.truthy (apiKey (construct keylessEnv)) = false /\
  apiKey (self (snd (chat keylessEnv ["  sk-abc "; "hi"; "quit"]))) = "sk-abc" /\
  length (requests (trace (snd (chat keylessEnv ["  sk-abc "; "hi"; "quit"])))) = 1.
Proof.
  assert (Hk : Js.truthy (apiKey (construct keylessEnv)) = false) by reflexivity.
  split; [exact Hk|].
  destruct (proj2 (missing_key_is_prompted keylessEnv Hk) "  sk-abc " ["hi"; "quit"])
    as (Ha & _ & Hlen & _).
  split; [exact Ha | exact Hlen].
Defined.

(** X13: with a preconfigured API key nothing is asked before the
    connection to the tool server, every line typed belongs to the
    conversation, and every request of the session carries that key. *)
Theorem configured_key_is_used (env : Env) (stdin : list string) :
  Js.truthy (apiKey (construct env)) = true ->
  let r := chat env stdin in
  apiKey (self (snd r)) = apiKey (construct env) /\
  Forall (fun req => req_apiKey req = apiKey (construct env)) (requests (trace (snd r))) /\
  length (requests (trace (snd r))) = turnsTyped stdin /\
  exists evs,
    trace (snd r) =
      [ConsoleLog "=== Nexus CLI - AI Chat ===";
       ConsoleLog ("Powered by Vercel AI SDK v5" +:+ nl);
       ConsoleLog ("Using API key from .env file" +:+ nl);
       ConsoleLog "Connecting to Civic MCP server..."] ++ evs.
Proof.
  intros Hkey r.
  destruct (chat_requests env stdin) as [Hreq Hk]. fold r in Hreq, Hk.
  assert (Hstart : start env stdin (fresh env) =
    mainLoop env stdin
      (loopEntry env
         {| self := construct env;
            trace := [ConsoleLog "=== Nexus CLI - AI Chat ===";
                      ConsoleLog ("Powered by Vercel AI SDK v5" +:+ nl);
                      ConsoleLog ("Using API key from .env file" +:+ nl)] |})).
  { rewrite start_run. cbv zeta.
    change (apiKey (self (fresh env))) with (apiKey (construct env)).
    rewrite Hkey. reflexivity. }
  rewrite Hstart in Hreq, Hk.
  match type of Hk with
  | _ = apiKey (self (snd (mainLoop env stdin (loopEntry env ?s0)))) =>
      destruct (entry_requests env s0 stdin eq_refl) as (Ha & Hall & Hlen);
      destruct (mainLoop_facts env stdin (loopEntry env s0)) as (evs1 & Hev1 & _)
  end.
  cbv zeta in Ha, Hall, Hlen, Hev1.
  split; [rewrite Hk; exact Ha|].
  split.
  { rewrite Hreq. eapply Forall_impl; [exact Hall|]. intros req (H & _). exact H. }
  split; [rewrite Hreq; exact Hlen|].
  assert (Hinit : exists evs, trace (snd (start env stdin (fresh env))) =
     [ConsoleLog "=== Nexus CLI - AI Chat ===";
      ConsoleLog ("Powered by Vercel AI SDK v5" +:+ nl);
      ConsoleLog ("Using API key from .env file" +:+ nl);
      ConsoleLog "Connecting to Civic MCP server..."] ++ evs).
  { rewrite Hstart, Hev1. unfold loopEntry. rewrite initializeMCP_run.
    cbn [snd trace logged]. unfold initEvents.
    eexists. rewrite <- !app_assoc. cbn [app]. reflexivity. }
  destruct Hinit as [evs Hevs].
  subst r. rewrite chat_run.
  destruct (start env stdin (fresh env)) as [[[]| |t] s1]; cbn [snd] in *.
  - now exists evs.
  - now exists evs.
  - exists (evs ++ [ConsoleError t]). cbn [logged trace]. rewrite Hevs.
    now rewrite <- app_assoc.
Qed.

Lemma configured_key_is_used_witness :
  Js.truthy (apiKey (construct echoEnv)) = true /\
  apiKey (self (snd (chat echoEnv ["hi"; " "; "again"]))) = "sk-test" /\
  length (requests (trace (snd (chat echoEnv ["hi"; " "; "again"])))) = 2.
Proof.
  assert (Hk : Js.truthy (apiKey (construct echoEnv)) = true) by reflexivity.
  split; [exact Hk|].
  destruct (configured_key_is_used echoEnv ["hi"; " "; "again"] Hk)
    as (Ha & _ & Hlen & _).
  split; [exact Ha | exact Hlen].
Defined.

Lemma entry_completion (env : Env) (lines : list string) (s : Session) :
  fst (mainLoop env lines s) =
  if hasExit lines
  then fst (mainLoop env lines s)
  else if inputEnded env then Uncaught ERR_USE_AFTER_CLOSE else Pending.
Proof.
  destruct (mainLoop_facts env lines s) as (evs & _ & _ & _ & _ & _ & Hend).
  cbv zeta in Hend. destruct (hasExit lines); [reflexivity|].
  destruct Hend as (_ & Hend). destruct (inputEnded env); apply Hend.
Qed.

Lemma entry_not_pending (env : Env) (lines : list string) (s : Session) :
  hasExit lines = true -> fst (mainLoop env lines s) <> Pending.
Proof.
  intros Hx.
  destruct (mainLoop_facts env lines s) as (evs & _ & _ & _ & _ & _ & Hend).
  cbv zeta in Hend. rewrite Hx in Hend.
  destruct Hend as [_ [Hd | (client & t & _ & _ & Hu)]]; congruence.
Qed.

(** X14: the program never ends with an error of its own: whatever escapes
    [start] is handed to [console.error], as the last thing the program
    does.  It ends when one of the lines left for the loop is [exit] or
    [quit], or when the input has ended by the time those lines run out
    (the [ERR_USE_AFTER_CLOSE] of the question is then what is handed to
    [console.error]); otherwise it waits: for a line of the conversation,
    or for the API key when none is configured and nothing is typed. *)
Theorem program_ends_on_keyword_or_end_of_input (env : Env) (stdin : list string) :
  fst (chat env stdin) =
    (if Js.truthy (apiKey (construct env))
     then if hasExit stdin || inputEnded env then Done tt else Pending
     else match stdin with
          | [] => Pending
          | _ :: rest => if hasExit rest || inputEnded env then Done tt else Pending
          end) /\
  (forall t,
     fst (start env stdin (fresh env)) = Uncaught t ->
     last (trace (snd (chat env stdin))) = Some (ConsoleError t)) /\
  (hasExit (loopLines env stdin) = false ->
   inputEnded env = true ->
   Js.truthy (apiKey (construct env)) = true \/ stdin <> [] ->
   last (trace (snd (chat env stdin))) = Some (ConsoleError ERR_USE_AFTER_CLOSE)).
Proof.
  assert (Hcatch : forall t,
    fst (start env stdin (fresh env)) = Uncaught t ->
    last (trace (snd (chat env stdin))) = Some (ConsoleError t)).
  { intros t Hu. rewrite chat_run.
    destruct (start env stdin (fresh env)) as [c s1]. cbn [fst] in Hu. subst c.
    cbn [snd]. apply last_logged. }
  assert (Hfst : forall lines s0,
    start env stdin (fresh env) = mainLoop env lines s0 ->
    fst (chat env stdin) = (if hasExit lines || inputEnded env then Done tt else Pending) /\
    (hasExit lines = false -> inputEnded env = true ->
     fst (start env stdin (fresh env)) = Uncaught ERR_USE_AFTER_CLOSE)).
  { intros lines s0 Hs. rewrite chat_run, Hs.
    pose proof (entry_completion env lines s0) as Hc.
    pose proof (entry_not_pending env lines s0) as Hn.
    destruct (mainLoop env lines s0) as [c s1]. cbn [fst] in Hc, Hn.
    destruct (hasExit lines); cbn [orb].
    - split; [|discriminate].
      destruct c as [[]| |t]; [reflexivity | now contradiction Hn | reflexivity].
    - destruct (inputEnded env); subst c; split; try reflexivity; discriminate. }
  pose proof (start_run env stdin (fresh env)) as Hrun. cbv zeta in Hrun.
  change (apiKey (self (fresh env))) with (apiKey (construct env)) in Hrun.
  unfold loopLines.
  destruct (Js.truthy (apiKey (construct env))) eqn:Hkey.
  - destruct (Hfst _ _ Hrun) as [H1 H2].
    split; [exact H1|]. split; [exact Hcatch|].
    intros Hx He _. apply Hcatch, H2; assumption.
  - destruct stdin as [|key rest].
    + split; [rewrite chat_run, Hrun; reflexivity|]. split; [exact Hcatch|].
      intros _ _ [Hk | Hne]; [discriminate | contradiction].
    + destruct (Hfst _ _ Hrun) as [H1 H2].
      split; [exact H1|]. split; [exact Hcatch|].
      intros Hx He _. apply Hcatch, H2; assumption.
Qed.

Lemma program_ends_on_keyword_or_end_of_input_witness :
  fst (start stuckEnv ["hi"; "exit"] (fresh stuckEnv))
    = Uncaught (Js.ErrorInstance "socket hang up") /\
  last (trace (snd (chat stuckEnv ["hi"; "exit"])))
    = Some (ConsoleError (Js.ErrorInstance "socket hang up")) /\
  hasExit (loopLines endedEnv ["hello"]) = false /\
  inputEnded endedEnv = true /\
  fst (chat endedEnv ["hello"]) = Done tt /\
  last (trace (snd (chat endedEnv ["hello"]))) = Some (ConsoleError ERR_USE_AFTER_CLOSE).
Proof.
  assert (Hu : fst (start stuckEnv ["hi"; "exit"] (fresh stuckEnv))
               = Uncaught (Js.ErrorInstance "socket hang up")) by reflexivity.
  assert (Hx : hasExit (loopLines endedEnv ["hello"]) = false) by reflexivity.
  assert (He : inputEnded endedEnv = true) by reflexivity.
  split; [exact Hu|].
  destruct (program_ends_on_keyword_or_end_of_input stuckEnv ["hi"; "exit"])
    as (_ & Hl & _).
  split; [exact (Hl _ Hu)|].
  split; [exact Hx|]. split; [exact He|].
  destruct (program_ends_on_keyword_or_end_of_input endedEnv ["hello"])
    as (Hc & _ & Hlast).
  split; [exact Hc|].
  exact (Hlast Hx He (or_introl eq_refl)).
Defined.

(** ** Turns, one after the other *)

(** X15: failed turns pile up: when every generation call throws, the
    history after some messages is the history before followed by those
    messages as user turns, in order; nothing is rolled back or dropped. *)
Theorem failed_turns_accumulate (env : Env) (userMessages : list string) (s : Session) :
  (forall k req, exists t, settled (generateText env k req) = Js.Rejected t) ->
  conversationHistory (self (afterTurns env userMessages s)) =
    conversationHistory (self s) ++ map userTurn userMessages /\
  callCount (trace (afterTurns env userMessages s)) =
    callCount (trace s) + length userMessages.
Proof.
  intros Hfail. revert s.
  induction userMessages as [|u us IH]; intros s.
  - simpl. rewrite app_nil_r. split; [reflexivity | lia].
  - change (afterTurns env (u :: us) s)
      with (afterTurns env us (snd (sendMessage env u s))).
    destruct (IH (snd (sendMessage env u s))) as [Hh Hc]. rewrite Hh, Hc.
    destruct (Hfail (callCount (trace s)) (requestOf (afterPush u (self s)))) as [t Ht].
    destruct (sendMessage_rejected env u s t Ht) as [_ Hself].
    destruct (sendMessage_frame env u s) as (_ & _ & _ & _ & _ & _ & Htr).
    rewrite Hself, Htr, callCount_app. cbn [callCount].
    rewrite stepNotices_callCount. simpl. rewrite <- app_assoc. split; [reflexivity | lia].
Qed.

Lemma failed_turns_accumulate_witness :
  (forall k req, exists t,
     settled (generateText errorFailureEnv k req) = Js.Rejected t) /\
  conversationHistory (self (afterTurns errorFailureEnv ["a"; "b"] (fresh errorFailureEnv)))
    = [userTurn "a"; userTurn "b"].
Proof.
  assert (Hf : forall k req, exists t,
             settled (generateText errorFailureEnv k req) = Js.Rejected t)
    by (intros k req; eexists; reflexivity).
  split; [exact Hf|].
  exact (proj1 (failed_turns_accumulate errorFailureEnv ["a"; "b"]
                  (fresh errorFailureEnv) Hf)).
Defined.

(** X16: the request of a turn carries the history followed by the user's
    message; after a successful turn, the request of the next turn carries
    the transcript of that turn followed by the new message, and is
    numbered one more. *)
Theorem next_request_carries_transcript
  (env : Env) (userMessage next : string) (s : Session) (result : GenResult) :
  settled (runOf env userMessage s) = Js.Resolved result ->
  let s1 := snd (sendMessage env userMessage s) in
  let s2 := snd (sendMessage env next s1) in
  exists notices notices',
    trace s2 =
      trace s
      ++ GenerateText (requestOf (afterPush userMessage (self s))) :: notices
      ++ GenerateText (requestOf (afterPush next (self s1))) :: notices' /\
    requests notices = [] /\ requests notices' = [] /\
    req_messages (requestOf (afterPush userMessage (self s))) =
      conversationHistory (self s) ++ [userTurn userMessage] /\
    req_messages (requestOf (afterPush next (self s1))) =
      response_messages result ++ [userTurn next] /\
    runOf env next s1 =
      generateText env (S (callCount (trace s))) (requestOf (afterPush next (self s1))).
Proof.
  intros Hres s1 s2.
  destruct (sendMessage_resolved env userMessage s result Hres) as [_ Hh].
  destruct (sendMessage_frame env userMessage s) as (_ & _ & _ & _ & _ & _ & Htr).
  destruct (sendMessage_frame env next s1) as (_ & _ & _ & _ & _ & _ & Htr').
  fold s1 in Hh, Htr, Htr'. fold s2 in Htr'.
  eexists. eexists. split.
  { rewrite Htr', Htr, <- app_assoc. reflexivity. }
  split; [apply stepNotices_requests|]. split; [apply stepNotices_requests|].
  split; [reflexivity|]. split.
  - simpl. now rewrite Hh.
  - unfold runOf. rewrite Htr, callCount_app. cbn [callCount].
    rewrite stepNotices_callCount. f_equal. lia.
Qed.

Lemma next_request_carries_transcript_witness :
  settled (runOf echoEnv "hi" (fresh echoEnv))
    = Js.Resolved {| text := "hello";
                     response_messages := [userTurn "hi"; answerTurn "hello"] |} /\
  map req_messages
    (requests (trace (snd (sendMessage echoEnv "again"
                             (snd (sendMessage echoEnv "hi" (fresh echoEnv)))))))
  = [[userTurn "hi"]; [userTurn "hi"; answerTurn "hello"; userTurn "again"]].
Proof.
  split; [reflexivity|].
  destruct (next_request_carries_transcript echoEnv "hi" "again" (fresh echoEnv) _ eq_refl)
    as (n1 & n2 & Htr & Hn1 & Hn2 & Hm1 & Hm2 & _).
  rewrite Htr. cbn [trace fresh app requests].
  rewrite requests_app, Hn1. cbn [app requests]. rewrite Hn2.
  cbn [map]. rewrite Hm1, Hm2. reflexivity.
Defined.

(** ** Debug mode *)

Lemma callNotices_sublist (call : ToolCall) :
  callNotices false call `sublist_of` callNotices true call.
Proof. unfold callNotices. apply sublist_skip. apply sublist_cons. constructor. Qed.

Lemma resultNotices_sublist (result : ToolResult) :
  resultNotices false result `sublist_of` resultNotices true result.
Proof.
  unfold resultNotices. destruct (flaggedError result).
  - apply sublist_skip. apply sublist_cons. constructor.
  - apply sublist_cons. constructor.
Qed.

Lemma flat_map_sublist {A} (f g : A -> list Event) (xs : list A) :
  (forall x, f x `sublist_of` g x) -> flat_map f xs `sublist_of` flat_map g xs.
Proof.
  intros Hfg. induction xs as [|x xs IH]; simpl; [constructor|].
  now apply sublist_app.
Qed.

Lemma stepNotices_sublist (step : Step) :
  stepNotices false step `sublist_of` stepNotices true step.
Proof.
  unfold stepNotices. apply sublist_app; apply flat_map_sublist.
  - apply callNotices_sublist.
  - apply resultNotices_sublist.
Qed.

(** X17: debug mode only adds lines.  On the same session and the same
    message, the turn with the debug flag off gives the same reply and the
    same history as with the flag on, and its trace is the trace of the
    debug turn with some lines left out. *)
Theorem debug_only_adds_lines (env : Env) (userMessage : string) (s : Session) :
  let quiet := sendMessage env userMessage
                 {| self := withDebugMode false (self s); trace := trace s |} in
  let verbose := sendMessage env userMessage
                   {| self := withDebugMode true (self s); trace := trace s |} in
  fst quiet = fst verbose /\
  conversationHistory (self (snd quiet)) = conversationHistory (self (snd verbose)) /\
  trace (snd quiet) `sublist_of` trace (snd verbose) /\
  requests (trace (snd quiet)) = requests (trace (snd verbose)).
Proof.
  cbv zeta. rewrite !sendMessage_run. cbv zeta.
  change (runOf env userMessage {| self := withDebugMode false (self s); trace := trace s |})
    with (runOf env userMessage {| self := withDebugMode true (self s); trace := trace s |}).
  set (run := runOf env userMessage _).
  assert (Hsub :
    trace s ++ GenerateText (requestOf (afterPush userMessage (withDebugMode false (self s))))
            :: flat_map (stepNotices false) (steps run)
    `sublist_of`
    trace s ++ GenerateText (requestOf (afterPush userMessage (withDebugMode true (self s))))
            :: flat_map (stepNotices true) (steps run)).
  { apply sublist_app; [reflexivity|].
    change (requestOf (afterPush userMessage (withDebugMode false (self s))))
      with (requestOf (afterPush userMessage (withDebugMode true (self s)))).
    apply sublist_skip, flat_map_sublist, stepNotices_sublist. }
  assert (Hreq :
    requests (trace s ++ GenerateText
                (requestOf (afterPush userMessage (withDebugMode false (self s))))
              :: flat_map (stepNotices false) (steps run)) =
    requests (trace s ++ GenerateText
                (requestOf (afterPush userMessage (withDebugMode true (self s))))
              :: flat_map (stepNotices true) (steps run))).
  { rewrite !requests_app. cbn [requests]. now rewrite !stepNotices_requests. }
  destruct (settled run) as [result | t]; cbn [fst snd self trace];
    (split; [reflexivity|]; split; [reflexivity|]; split; [exact Hsub | exact Hreq]).
Qed.

(** A turn under both settings of the debug flag, on a step with a call, a
    plain result and an errored one. *)
Example debug_lines :
  let env := sampleEnv refused
               (fun req => {| steps := [mixedStep];
                              settled := Js.Resolved {| text := "done";
                                                        response_messages := req_messages req |} |}) in
  map (fun b => length (trace (snd (sendMessage env "go"
                  {| self := withDebugMode b (construct env); trace := [] |}))))
      [false; true] = [3; 6].
Proof. reflexivity. Qed.

(** ** What trimming removes *)

Lemma trimStart_decompose (s : string) :
  exists before, s = before +:+ Js.trimStart s /\ Js.allWhiteSpace before = true.
Proof.
  induction s as [|c s (before & Hs & Hb)]; [now exists EmptyString|].
  simpl. destruct (Js.isWhiteSpace c) eqn:Ec.
  - exists (String c before). simpl. rewrite Ec, Hb. split; [|reflexivity].
    change (String c before +:+ Js.trimStart s)
      with (String c (before +:+ Js.trimStart s)).
    congruence.
  - now exists EmptyString.
Qed.

Lemma trimEnd_decompose (s : string) :
  exists after, s = Js.trimEnd s +:+ after /\ Js.allWhiteSpace after = true.
Proof.
  induction s as [|c s (after & Hs & Ha)]; [now exists EmptyString|].
  rewrite trimEnd_cons. destruct (Js.trimEnd s) as [|d t].
  - change (EmptyString +:+ after) with after in Hs. subst after.
    destruct (Js.isWhiteSpace c) eqn:Ec.
    + exists (String c s). split; [reflexivity|].
      cbn [Js.allWhiteSpace]. now rewrite Ec, Ha.
    + exists s. split; [reflexivity | exact Ha].
  - exists after. split; [|exact Ha].
    change (String c (String d t) +:+ after) with (String c (String d t +:+ after)).
    congruence.
Qed.

(** X18: the text [getUserInput] resolves to is the line typed with white
    space taken away at both ends and nothing else: the line is that text
    between two runs of white space. *)
Theorem user_input_is_the_line_unpadded
  (env : Env) (prompt line : string) (rest : list string) (s : Session)
  (userInput : string) :
  fst (getUserInput env prompt (line :: rest) s) = Done userInput ->
  exists before after,
    line = before +:+ userInput +:+ after /\
    Js.allWhiteSpace before = true /\
    Js.allWhiteSpace after = true.
Proof.
  rewrite getUserInput_run. simpl. intros [= <-]. unfold Js.trim.
  destruct (trimStart_decompose line) as (before & Hl & Hb).
  destruct (trimEnd_decompose (Js.trimStart line)) as (after & Ht & Ha).
  exists before, after. split; [|split; assumption].
  rewrite <- Ht. exact Hl.
Qed.

Lemma user_input_is_the_line_unpadded_witness :
  fst (getUserInput echoEnv "You: " [" a b  "] (fresh echoEnv)) = Done "a b" /\
  exists before after,
    " a b  " = before +:+ "a b" +:+ after /\
    Js.allWhiteSpace before = true /\ Js.allWhiteSpace after = true.
Proof.
  split; [reflexivity|].
  exact (user_input_is_the_line_unpadded echoEnv "You: " " a b  " [] (fresh echoEnv)
           "a b" eq_refl).
Defined.
